(** * Habit tracker (src/habit_tracker.py): period keys, streaks and the
    writes to the data store.

    The Python [datetime] values handled by the code are modelled by their
    calendar part (year, month, day): the time of day never influences a
    period key, and [datetime - timedelta(days=..)] keeps it unchanged.
    Failing [datetime] operations ([OverflowError] below year 1,
    [ValueError] of [replace] on a day that does not exist) are [None]. *)

From Stdlib Require Import ZArith Lia List Ascii String.
From stdpp Require Import base gmap strings.
Import ListNotations.

Local Open Scope Z_scope.

(** ** Calendar *)

Record date := mkdate { year : Z; month : Z; day : Z }.

(** [calendar.isleap] *)
Definition is_leap (y : Z) : bool :=
  (Z.eqb (y mod 4) 0 && negb (Z.eqb (y mod 100) 0)) || Z.eqb (y mod 400) 0.

(** [_days_in_month] *)
Definition days_in_month (y m : Z) : Z :=
  if Z.eqb m 2 then (if is_leap y then 29 else 28)
  else if (Z.eqb m 4 || Z.eqb m 6 || Z.eqb m 9 || Z.eqb m 11) then 30
  else 31.

(** The dates a [datetime] can hold ([MINYEAR] = 1, [MAXYEAR] = 9999). *)
Definition valid_date (d : date) : bool :=
  (1 <=? year d) && (year d <=? 9999) &&
  (1 <=? month d) && (month d <=? 12) &&
  (1 <=? day d) && (day d <=? days_in_month (year d) (month d)).

(** [_days_before_year] *)
Definition days_before_year (y : Z) : Z :=
  let y1 := y - 1 in y1 * 365 + y1 / 4 - y1 / 100 + y1 / 400.

(** [_days_before_month] *)
Fixpoint days_before_month_aux (y : Z) (k : nat) : Z :=
  match k with
  | O => 0
  | S k' => days_before_month_aux y k' + days_in_month y (Z.of_nat k)
  end.

Definition days_before_month (y m : Z) : Z :=
  days_before_month_aux y (Z.to_nat (m - 1)).

(** [date.toordinal]: 0001-01-01 is day 1. *)
Definition toordinal (d : date) : Z :=
  days_before_year (year d) + days_before_month (year d) (month d) + day d.

(** [date.weekday]: Monday is 0. *)
Definition weekday (d : date) : Z := (toordinal d + 6) mod 7.

(** [tm_yday] of [timetuple], counted from 0 as C's [struct tm] has it. *)
Definition yday0 (d : date) : Z := days_before_month (year d) (month d) + day d - 1.

(** C [strftime]'s [%W]: week of the year, weeks starting on Monday, the
    days before the first Monday being week 0. *)
Definition week_W (d : date) : Z := (yday0 d - weekday d + 7) / 7.

(** [d - timedelta(days=1)]; below 0001-01-01 [datetime] raises
    [OverflowError]. *)
Definition prev_day (d : date) : option date :=
  if 1 <? day d then Some (mkdate (year d) (month d) (day d - 1))
  else if 1 <? month d then
    Some (mkdate (year d) (month d - 1) (days_in_month (year d) (month d - 1)))
  else if 1 <? year d then Some (mkdate (year d - 1) 12 31)
  else None.

(** [d - timedelta(days=n)] *)
Fixpoint sub_days (n : nat) (d : date) : option date :=
  match n with
  | O => Some d
  | S n' => match prev_day d with Some d' => sub_days n' d' | None => None end
  end.

(** [d.replace(year=y, month=m)]: [ValueError] when the result is not a
    date. *)
Definition replace_ym (d : date) (y m : Z) : option date :=
  let d' := mkdate y m (day d) in
  if valid_date d' then Some d' else None.

(** ** strftime *)

Definition digit (n : Z) : ascii := ascii_of_nat (48 + Z.to_nat n).

(** [%Y]: Python hands [strftime] to the C library, and glibc writes the
    year (1..9999 here) in decimal without zero padding: one to four
    digits. *)
Definition fmt_Y (y : Z) : string :=
  if y <? 10 then String (digit y) EmptyString
  else if y <? 100 then String (digit (y / 10)) (String (digit (y mod 10)) EmptyString)
  else if y <? 1000 then
    String (digit (y / 100)) (String (digit ((y / 10) mod 10))
      (String (digit (y mod 10)) EmptyString))
  else
    String (digit (y / 1000)) (String (digit ((y / 100) mod 10))
      (String (digit ((y / 10) mod 10)) (String (digit (y mod 10)) EmptyString))).

(** [%m], [%d], [%W]: two decimal digits. *)
Definition fmt_2 (n : Z) : string :=
  String (digit (n / 10)) (String (digit (n mod 10)) EmptyString).

(** [date.strftime("%Y-%m-%d")] *)
Definition fmt_ymd (d : date) : string :=
  String.append (fmt_Y (year d)) (String.append "-"
    (String.append (fmt_2 (month d)) (String.append "-" (fmt_2 (day d))))).

(** [date.strftime("%Y-W%W")] *)
Definition fmt_yW (d : date) : string :=
  String.append (fmt_Y (year d)) (String.append "-W" (fmt_2 (week_W d))).

(** [date.strftime("%Y-%m")] *)
Definition fmt_ym (d : date) : string :=
  String.append (fmt_Y (year d)) (String.append "-" (fmt_2 (month d))).

(** ** get_period_key *)

Definition get_period_key (habit_type : string) (date : date) : string :=
  if String.eqb habit_type "daily" then fmt_ymd date
  else if String.eqb habit_type "weekly" then fmt_yW date
  else if String.eqb habit_type "monthly" then fmt_ym date
  else fmt_ymd date.

(** ** get_streak *)

(** The dict built by [load_completions]: period key -> habit names. *)
Abbreviation completions_map := (gmap string (list string)).

(** [period_key in completions and habit_name in completions[period_key]] *)
Definition completed (completions : completions_map) (period_key habit_name : string) : bool :=
  match completions !! period_key with
  | Some names => existsb (String.eqb habit_name) names
  | None => false
  end.

(** One backward step of [check_date] in the loop body; a cadence outside
    the three leaves [check_date] as it is. *)
Definition step_back (habit_type : string) (check_date : date) : option date :=
  if String.eqb habit_type "daily" then sub_days 1 check_date
  else if String.eqb habit_type "weekly" then sub_days 7 check_date
  else if String.eqb habit_type "monthly" then
    (if Z.eqb (month check_date) 1
     then replace_ym check_date (year check_date - 1) 12
     else replace_ym check_date (year check_date) (month check_date - 1))
  else Some check_date.

(** The [while True] loop, run for at most [fuel] iterations; [None] is an
    exception escaping the loop. *)
Fixpoint streak_loop (fuel : nat) (habit_name habit_type : string)
    (completions : completions_map) (streak : nat) (check_date : date) : option nat :=
  match fuel with
  | O => Some streak
  | S fuel' =>
      let period_key := get_period_key habit_type check_date in
      if completed completions period_key habit_name then
        let streak := S streak in
        match step_back habit_type check_date with
        | None => None
        | Some check_date =>
            if Nat.ltb 365 streak then Some streak
            else streak_loop fuel' habit_name habit_type completions streak check_date
        end
      else Some streak
  end.

(** [get_streak(habit_name, habit_type, completions)] with
    [datetime.now()] passed as [now]. The loop body runs at most 366 times
    (see [streak_loop_fuel] below), so this fuel never runs out. *)
Definition get_streak (habit_name habit_type : string)
    (completions : completions_map) (now : date) : option nat :=
  streak_loop 366 habit_name habit_type completions 0 now.

(** ** The data store

    The four tables of the Supabase project, each a list of rows. A
    [.insert(row)] appends the row (the code declares no uniqueness check),
    a [.delete().eq(..)...] removes the rows matching every [eq] filter,
    an [.update(..).eq(..)] rewrites the matching rows. *)

Record user_row := mk_user_row { u_username : string; u_password_hash : string }.

Record access_code_row := mk_access_code_row
  { ac_code : string; ac_used : bool; ac_used_by : string }.

Record habit_row := mk_habit_row
  { h_name : string; h_username : string; h_habit_type : string; h_created_at : Z }.

Record completion_row := mk_completion_row
  { c_period_key : string; c_habit_name : string; c_username : string }.

Record store := mk_store {
  users : list user_row;
  access_codes : list access_code_row;
  habits : list habit_row;
  completions : list completion_row }.

Definition set_users (s : store) (t : list user_row) : store :=
  mk_store t (access_codes s) (habits s) (completions s).
Definition set_access_codes (s : store) (t : list access_code_row) : store :=
  mk_store (users s) t (habits s) (completions s).
Definition set_habits (s : store) (t : list habit_row) : store :=
  mk_store (users s) (access_codes s) t (completions s).
Definition set_completions (s : store) (t : list completion_row) : store :=
  mk_store (users s) (access_codes s) (habits s) t.

(** [table.delete()] with the [eq] filters folded into [sel]. *)
Definition delete_where {A} (sel : A -> bool) (t : list A) : list A :=
  List.filter (fun r => negb (sel r)) t.

(** [table.insert(row)] *)
Definition insert_row {A} (r : A) (t : list A) : list A := t ++ [r].

(** *** Habits and completions *)

(** [remove_habit]: two independent deletes, habits then completions. *)
Definition remove_habit (s : store) (username habit_name : string) : store :=
  let s := set_habits s (delete_where (fun r =>
             String.eqb (h_name r) habit_name && String.eqb (h_username r) username)
             (habits s)) in
  set_completions s (delete_where (fun r =>
    String.eqb (c_habit_name r) habit_name && String.eqb (c_username r) username)
    (completions s)).

(** [toggle_completion] *)
Definition toggle_completion (s : store) (username period_key habit_name : string)
    (is_completed : bool) : store :=
  if is_completed then
    set_completions s (insert_row (mk_completion_row period_key habit_name username)
                         (completions s))
  else
    set_completions s (delete_where (fun r =>
      String.eqb (c_period_key r) period_key && String.eqb (c_habit_name r) habit_name
      && String.eqb (c_username r) username) (completions s)).

(** Number of completion rows for [(username, habit_name, period_key)]. *)
Definition count_completions (s : store) (username habit_name period_key : string) : nat :=
  List.length (List.filter (fun r =>
    String.eqb (c_period_key r) period_key && String.eqb (c_habit_name r) habit_name
    && String.eqb (c_username r) username) (completions s)).

(** The rows of the habits and completions tables owned by [username]. *)
Definition habits_of (s : store) (username : string) : list habit_row :=
  List.filter (fun r => String.eqb (h_username r) username) (habits s).
Definition completions_of (s : store) (username : string) : list completion_row :=
  List.filter (fun r => String.eqb (c_username r) username) (completions s).

(** *** Signup *)

Section Signup.

(** [hash_password]: SHA-256 of the password, a function of the password
    only. *)
Variable hash_password : string -> string.

(** [verify_access_code]: some row has this code and [used = False]. *)
Definition verify_access_code (s : store) (code : string) : bool :=
  existsb (fun r => String.eqb (ac_code r) code && negb (ac_used r)) (access_codes s).

(** [mark_access_code_used] *)
Definition mark_access_code_used (s : store) (code username : string) : store :=
  set_access_codes s (List.map (fun r =>
    if String.eqb (ac_code r) code then mk_access_code_row (ac_code r) true username else r)
    (access_codes s)).

(** [create_user]; [insert_ok] says whether the data store accepted the
    insert: when it raises, the exception is caught and [False] returned. *)
Definition create_user (insert_ok : bool) (s : store) (username password : string)
    : store * bool :=
  if insert_ok then
    (set_users s (insert_row (mk_user_row username (hash_password password)) (users s)), true)
  else (s, false).

(** [user_exists] *)
Definition user_exists (s : store) (username : string) : bool :=
  existsb (fun r => String.eqb (u_username r) username) (users s).

(** Whether a row of [code] is marked used. *)
Definition code_consumed (s : store) (code : string) : bool :=
  existsb (fun r => String.eqb (ac_code r) code && ac_used r) (access_codes s).

(** The last branch of the "Create Account" handler of [show_login_page]:
    the states of the store after each write call, in order (the first is
    the state before any write), and the message shown. Execution stopped
    between two calls leaves the store in one of these states. *)
Definition signup_create (insert_ok : bool) (s : store) (username password code : string)
    : list store * string :=
  let (s1, created) := create_user insert_ok s username password in
  if created then
    let s2 := mark_access_code_used s1 code username in
    ([s; s1; s2], "Account created! Please login.")
  else ([s; s1], "Failed to create account").

(** The whole "Create Account" handler. [String.length] counts the bytes
    of the text where Python's [len] counts code points; the two agree on
    ASCII passwords. *)
Definition signup (insert_ok : bool) (s : store)
    (username password password_confirm code : string) : list store * string :=
  if existsb (String.eqb "") [username; password; password_confirm; code] then
    ([s], "Please fill in all fields")
  else if Nat.ltb (String.length password) 6 then
    ([s], "Password must be at least 6 characters")
  else if negb (String.eqb password password_confirm) then
    ([s], "Passwords do not match")
  else if user_exists s username then ([s], "Username already taken")
  else if negb (verify_access_code s code) then
    ([s], "Invalid or already used access code")
  else signup_create insert_ok s username password code.

End Signup.

(** One iteration of the loop of [load_completions]:
    [completions.setdefault(period_key, []).append(habit_name)]. *)
Definition load_step (acc : completions_map) (row : completion_row) : completions_map :=
  let names := match acc !! c_period_key row with Some l => l | None => [] end in
  <[c_period_key row := names ++ [c_habit_name row]]> acc.

(** [load_completions(supabase, username)]: the rows of the user, grouped
    by period key in the order the data store returns them. The query sets
    no [order()]; the model reads the rows in table order, so statements
    about the order of the names hold only up to permutation. *)
Definition load_completions (s : store) (username : string) : completions_map :=
  fold_left load_step (completions_of s username) ∅.

(** *** Login, habits and the habit cards *)

Section Login.

Variable hash_password : string -> string.

(** [verify_user]: a row with this username and this password hash. *)
Definition verify_user (s : store) (username password : string) : bool :=
  existsb (fun r => String.eqb (u_username r) username &&
                    String.eqb (u_password_hash r) (hash_password password)) (users s).

(** The "Login" handler of [show_login_page]: [Some username] is the
    session marked authenticated for [username]. *)
Definition login (s : store) (username password : string) : option string :=
  if negb (String.eqb username "") && negb (String.eqb password "") then
    (if verify_user s username password then Some username else None)
  else None.

End Login.

(** [save_habit]; [created_at] is filled in by the data store. *)
Definition save_habit (s : store) (username habit_name habit_type : string)
    (created_at : Z) : store :=
  set_habits s (insert_row (mk_habit_row habit_name username habit_type created_at) (habits s)).

(** The "Add" handler of [show_main_app]. [existing_names] are the names of
    [load_habits(supabase, username)]; the [order("created_at")] of that
    query does not change which names it holds. *)
Definition add_habit_click (s : store) (username new_habit habit_type : string)
    (created_at : Z) : store * string :=
  let existing_names := List.map h_name (habits_of s username) in
  if negb (String.eqb new_habit "") && negb (existsb (String.eqb new_habit) existing_names) then
    (save_habit s username new_habit habit_type created_at,
     String.append "Added '" (String.append new_habit "'!"))
  else if existsb (String.eqb new_habit) existing_names then (s, "Already exists!")
  else (s, "Enter a name").

(** [completions.get(period_key, [])] *)
Definition names_at (cm : completions_map) (period_key : string) : list string :=
  match cm !! period_key with Some l => l | None => [] end.

(** Python's [list.remove(x)]: drops the first occurrence (the code only
    calls it on a list holding [x]). *)
Fixpoint remove_first (x : string) (l : list string) : list string :=
  match l with
  | [] => []
  | y :: l' => if String.eqb y x then l' else y :: remove_first x l'
  end.

(** The logic of [render_habit_card]: the card computes [is_completed],
    then calls [get_streak], then draws the checkbox. [None] when
    [get_streak] raises: the exception ends the script run before the
    checkbox. Otherwise the new store and the new local [completions] dict
    once the box was set to [checkbox_value]. *)
Definition render_habit_card_toggle (s : store) (cm : completions_map) (username : string)
    (habit : habit_row) (now : date) (checkbox_value : bool) : option (store * completions_map) :=
  let habit_name := h_name habit in
  let habit_type := h_habit_type habit in
  let period_key := get_period_key habit_type now in
  let is_completed := existsb (String.eqb habit_name) (names_at cm period_key) in
  match get_streak habit_name habit_type cm now with
  | None => None
  | Some _ =>
      if Bool.eqb checkbox_value is_completed then Some (s, cm)
      else
        let s' := toggle_completion s username period_key habit_name checkbox_value in
        if checkbox_value then
          Some (s', <[period_key := names_at cm period_key ++ [habit_name]]> cm)
        else Some (s', <[period_key := remove_first habit_name (names_at cm period_key)]> cm)
  end.

(** The progress of [render_habit_section]: [None] when the section is not
    drawn ([return False]), else [(completed_count, total_count)]. *)
Definition section_progress (habits : list habit_row) (cm : completions_map)
    (habit_type : string) (now : date) : option (nat * nat) :=
  let type_habits := List.filter (fun h => String.eqb (h_habit_type h) habit_type) habits in
  match type_habits with
  | [] => None
  | _ =>
      let period_key := get_period_key habit_type now in
      Some (List.length (List.filter (fun h => existsb (String.eqb (h_name h)) (names_at cm period_key))
              type_habits), List.length type_habits)
  end.

(** The cards of one run of [show_main_app]: the three calls of
    [render_habit_section] draw their habits' cards in turn, all on the one
    [completions] dict, which each card mutates in place; [clicks] pairs
    each card's habit with the value its checkbox returns. [None] when a
    card raises, which ends the run. *)
Fixpoint render_cards (s : store) (cm : completions_map) (username : string) (now : date)
    (clicks : list (habit_row * bool)) : option (store * completions_map) :=
  match clicks with
  | [] => Some (s, cm)
  | (habit, checkbox_value) :: rest =>
      match render_habit_card_toggle s cm username habit now checkbox_value with
      | Some (s', cm') => render_cards s' cm' username now rest
      | None => None
      end
  end.

(** The dates reached from [check_date] by [k] backward steps of the loop. *)
Fixpoint steps (habit_type : string) (k : nat) (check_date : date) : option date :=
  match k with
  | O => Some check_date
  | S k' =>
      match step_back habit_type check_date with
      | Some d => steps habit_type k' d
      | None => None
      end
  end.

(** A store holding a completion of [habit_name] by [username] for each of
    the given dates, keyed with the cadence's period key. *)
Definition store_with (habit_type username habit_name : string) (ds : list date) : store :=
  mk_store [] [] [mk_habit_row habit_name username habit_type 0]
    (List.map (fun d => mk_completion_row (get_period_key habit_type d) habit_name username) ds).

(** [n] consecutive days ending at [d], latest first. *)
Fixpoint days_back (n : nat) (d : date) : list date :=
  match n with
  | O => []
  | S n' => d :: match prev_day d with Some d' => days_back n' d' | None => [] end
  end.

(** Readers of the key formats, to state what [get_period_key] writes. *)
Definition digit_val (a : ascii) : option Z :=
  let n := Z.of_nat (nat_of_ascii a) in
  if (48 <=? n) && (n <=? 57) then Some (n - 48) else None.

Definition num2 (a b : ascii) : option Z :=
  match digit_val a, digit_val b with
  | Some x, Some y => Some (10 * x + y)
  | _, _ => None
  end.

(** Decimal digits, most significant first. *)
Fixpoint read_digits (acc : Z) (s : string) : option Z :=
  match s with
  | EmptyString => Some acc
  | String c s' =>
      match digit_val c with
      | Some v => read_digits (10 * acc + v) s'
      | None => None
      end
  end.

(** A year as [%Y] writes it: decimal digits, no leading zero. *)
Definition parse_year (s : string) : option Z :=
  match s with
  | EmptyString => None
  | String c _ => if Ascii.eqb c "0" then None else read_digits 0 s
  end.

(** The text before the first "-" and the text after it. *)
Fixpoint split_dash (s : string) : string * string :=
  match s with
  | EmptyString => (EmptyString, EmptyString)
  | String c s' =>
      if Ascii.eqb c "-" then (EmptyString, s')
      else let (a, b) := split_dash s' in (String c a, b)
  end.

(** "Y-MM-DD" *)
Definition parse_ymd (s : string) : option (Z * Z * Z) :=
  let (ys, r) := split_dash s in
  match parse_year ys, r with
  | Some y, String m1 (String m2 (String s2 (String d1 (String d2 EmptyString)))) =>
      if Ascii.eqb s2 "-" then
        match num2 m1 m2, num2 d1 d2 with
        | Some m, Some d => Some (y, m, d)
        | _, _ => None
        end
      else None
  | _, _ => None
  end.

(** "Y-Www" *)
Definition parse_yW (s : string) : option (Z * Z) :=
  let (ys, r) := split_dash s in
  match parse_year ys, r with
  | Some y, String w (String w1 (String w2 EmptyString)) =>
      if Ascii.eqb w "W" then
        match num2 w1 w2 with
        | Some n => Some (y, n)
        | None => None
        end
      else None
  | _, _ => None
  end.

(** "Y-MM" *)
Definition parse_ym (s : string) : option (Z * Z) :=
  let (ys, r) := split_dash s in
  match parse_year ys, r with
  | Some y, String m1 (String m2 EmptyString) =>
      match num2 m1 m2 with
      | Some m => Some (y, m)
      | None => None
      end
  | _, _ => None
  end.

(** ** Lemmas on the streak loop *)

Lemma steps_S_r (habit_type : string) (k : nat) (d : date) :
  steps habit_type (S k) d =
  match steps habit_type k d with Some d' => step_back habit_type d' | None => None end.
Proof.
  revert d; induction k as [|k IH]; intros d; simpl.
  - destruct (step_back habit_type d); reflexivity.
  - destruct (step_back habit_type d) as [d'|]; [|reflexivity].
    rewrite <- IH. reflexivity.
Qed.

(** The loop never returns more than 366 once started below the bound. *)
Lemma streak_loop_le (fuel : nat) habit_name habit_type (cm : completions_map)
    (streak : nat) (d : date) (r : nat) :
  (streak <= 365)%nat ->
  streak_loop fuel habit_name habit_type cm streak d = Some r -> (r <= 366)%nat.
Proof.
  revert streak d; induction fuel as [|fuel IH]; intros streak d Hs Hr; simpl in Hr.
  - injection Hr as <-; lia.
  - destruct (completed _ _ _); [|injection Hr as <-; lia].
    destruct (step_back habit_type d) as [d'|]; [|discriminate].
    destruct (Nat.ltb 365 (S streak)) eqn:Hlt.
    + injection Hr as <-; lia.
    + apply Nat.ltb_ge in Hlt. exact (IH (S streak) d' Hlt Hr).
Qed.

(** Once the fuel covers the 366 increments the loop can make, more fuel
    changes nothing: [get_streak] is the [while True] loop itself. *)
Lemma streak_loop_fuel (fuel extra : nat) habit_name habit_type (cm : completions_map)
    (streak : nat) (d : date) :
  (streak <= 365)%nat -> (366 <= streak + fuel)%nat ->
  streak_loop (fuel + extra) habit_name habit_type cm streak d =
  streak_loop fuel habit_name habit_type cm streak d.
Proof.
  revert streak d; induction fuel as [|fuel IH]; intros streak d Hs Hf.
  - lia.
  - simpl. destruct (completed _ _ _); [|reflexivity].
    destruct (step_back habit_type d) as [d'|]; [|reflexivity].
    destruct (Nat.ltb 365 (S streak)) eqn:Hlt; [reflexivity|].
    apply Nat.ltb_ge in Hlt. apply IH; lia.
Qed.

Lemma get_streak_le_366 habit_name habit_type (cm : completions_map) (now : date) (r : nat) :
  get_streak habit_name habit_type cm now = Some r -> (r <= 366)%nat.
Proof. apply streak_loop_le. lia. Qed.

Lemma get_streak_any_bound habit_name habit_type (cm : completions_map) (now : date) (extra : nat) :
  streak_loop (366 + extra) habit_name habit_type cm 0 now = get_streak habit_name habit_type cm now.
Proof. apply streak_loop_fuel; lia. Qed.

(** The loop counts the run of completed periods from step [j] on. *)
Lemma streak_loop_run habit_name habit_type (cm : completions_map) (now : date) (n : nat) :
  (n <= 365)%nat ->
  (forall k, (k < n)%nat -> exists d, steps habit_type k now = Some d /\
     completed cm (get_period_key habit_type d) habit_name = true) ->
  (exists d, steps habit_type n now = Some d /\
     completed cm (get_period_key habit_type d) habit_name = false) ->
  forall fuel j d, (j <= n)%nat -> (n - j < fuel)%nat -> steps habit_type j now = Some d ->
  streak_loop fuel habit_name habit_type cm j d = Some n.
Proof.
  intros Hn Hrun [dn [Hdn Hgap]].
  induction fuel as [|fuel IH]; intros j d Hj Hf Hd; [lia|].
  simpl. destruct (Nat.eq_dec j n) as [->|Hne].
  - rewrite Hdn in Hd. injection Hd as <-. rewrite Hgap. reflexivity.
  - destruct (Hrun j ltac:(lia)) as [d' [Hd' Hc]].
    rewrite Hd in Hd'. injection Hd' as <-. rewrite Hc.
    assert (Hnext : exists d1, steps habit_type (S j) now = Some d1).
    { destruct (Nat.eq_dec (S j) n) as [->|Hne'].
      - exists dn; exact Hdn.
      - destruct (Hrun (S j) ltac:(lia)) as [d1 [Hd1 _]]. exists d1; exact Hd1. }
    destruct Hnext as [d1 Hd1].
    rewrite steps_S_r, Hd in Hd1. rewrite Hd1.
    replace (Nat.ltb 365 (S j)) with false by (symmetry; apply Nat.ltb_ge; lia).
    apply IH; [lia|lia|].
    rewrite steps_S_r, Hd. exact Hd1.
Qed.

(** ** Lemmas on dates and keys *)

Lemma valid_date_spec (d : date) :
  valid_date d = true ->
  1 <= year d <= 9999 /\ 1 <= month d <= 12 /\ 1 <= day d <= days_in_month (year d) (month d).
Proof.
  unfold valid_date. intros H.
  repeat rewrite andb_true_iff in H. repeat rewrite Z.leb_le in H. lia.
Qed.

Lemma digit_val_digit (n : Z) : 0 <= n <= 9 -> digit_val (digit n) = Some n.
Proof.
  intros Hn. rewrite <- (Z2Nat.id n) at 2 by lia.
  assert (Hk : (Z.to_nat n < 10)%nat) by lia.
  unfold digit, digit_val. revert Hk. generalize (Z.to_nat n) as k. intros k Hk'.
  do 10 (destruct k as [|k]; [reflexivity|]). lia.
Qed.

Lemma digit_not (n : Z) (a : ascii) :
  0 <= n <= 9 -> digit_val a = None -> Ascii.eqb (digit n) a = false.
Proof.
  intros Hn Ha. destruct (Ascii.eqb_spec (digit n) a) as [<-|]; [|reflexivity].
  rewrite digit_val_digit in Ha by lia. discriminate.
Qed.

Lemma digit_nonzero (n : Z) : 1 <= n <= 9 -> Ascii.eqb (digit n) "0" = false.
Proof.
  intros Hn. destruct (Ascii.eqb_spec (digit n) "0") as [E|]; [|reflexivity].
  apply (f_equal digit_val) in E. rewrite digit_val_digit in E by lia.
  vm_compute in E. injection E. lia.
Qed.

Lemma parse_year_fmt_Y (y : Z) : 1 <= y <= 9999 -> parse_year (fmt_Y y) = Some y.
Proof.
  intros Hy. unfold fmt_Y.
  destruct (Z.ltb_spec y 10); [|destruct (Z.ltb_spec y 100); [|destruct (Z.ltb_spec y 1000)]];
    unfold parse_year; rewrite digit_nonzero by (Z.div_mod_to_equations; lia);
    cbn -[digit_val digit];
    repeat (rewrite digit_val_digit by (Z.div_mod_to_equations; lia); cbn -[digit_val digit]);
    f_equal; Z.div_mod_to_equations; lia.
Qed.

Lemma split_dash_fmt_Y (y : Z) (r : string) : 1 <= y <= 9999 ->
  split_dash (String.append (fmt_Y y) (String "-" r)) = (fmt_Y y, r).
Proof.
  intros Hy. assert (Hd : digit_val "-" = None) by reflexivity.
  unfold fmt_Y.
  destruct (Z.ltb_spec y 10); [|destruct (Z.ltb_spec y 100); [|destruct (Z.ltb_spec y 1000)]];
    unfold String.append; cbn -[digit];
    rewrite ?digit_not by (assumption || (Z.div_mod_to_equations; lia)); reflexivity.
Qed.

Lemma append_dash (x : string) : String.append "-" x = String "-" x.
Proof. reflexivity. Qed.

Lemma append_dash_W (x : string) : String.append "-W" x = String "-" (String "W" x).
Proof. reflexivity. Qed.

Lemma num2_fmt_2 (n : Z) : 0 <= n <= 99 ->
  match fmt_2 n with
  | String a (String b EmptyString) => num2 a b = Some n
  | _ => False
  end.
Proof.
  intros Hn. unfold fmt_2, num2.
  rewrite !digit_val_digit by (Z.div_mod_to_equations; lia).
  f_equal. Z.div_mod_to_equations. lia.
Qed.

Lemma parse_ymd_fmt (y m dd : Z) :
  1 <= y <= 9999 -> 0 <= m <= 99 -> 0 <= dd <= 99 ->
  parse_ymd (fmt_ymd (mkdate y m dd)) = Some (y, m, dd).
Proof.
  intros Hy Hm Hd. unfold parse_ymd, fmt_ymd; cbn [year month day].
  rewrite !append_dash, split_dash_fmt_Y by exact Hy. cbv beta iota.
  rewrite parse_year_fmt_Y by exact Hy.
  pose proof (num2_fmt_2 m Hm) as HM. pose proof (num2_fmt_2 dd Hd) as HD.
  destruct (fmt_2 m) as [|m1 [|m2 [|]]]; try contradiction.
  destruct (fmt_2 dd) as [|d1 [|d2 [|]]]; try contradiction.
  unfold String.append; cbn -[num2]. rewrite HM, HD. reflexivity.
Qed.

Lemma parse_yW_fmt (y w : Z) (d : date) :
  year d = y -> week_W d = w -> 1 <= y <= 9999 -> 0 <= w <= 99 ->
  parse_yW (fmt_yW d) = Some (y, w).
Proof.
  intros <- <- Hy Hw. unfold parse_yW, fmt_yW.
  rewrite append_dash_W, split_dash_fmt_Y by exact Hy. cbv beta iota.
  rewrite parse_year_fmt_Y by exact Hy.
  pose proof (num2_fmt_2 _ Hw) as HW.
  destruct (fmt_2 (week_W d)) as [|w1 [|w2 [|]]]; try contradiction.
  cbn -[num2]. rewrite HW. reflexivity.
Qed.

Lemma parse_ym_fmt (y m dd : Z) :
  1 <= y <= 9999 -> 0 <= m <= 99 ->
  parse_ym (fmt_ym (mkdate y m dd)) = Some (y, m).
Proof.
  intros Hy Hm. unfold parse_ym, fmt_ym; cbn [year month day].
  rewrite append_dash, split_dash_fmt_Y by exact Hy. cbv beta iota.
  rewrite parse_year_fmt_Y by exact Hy.
  pose proof (num2_fmt_2 m Hm) as HM.
  destruct (fmt_2 m) as [|m1 [|m2 [|]]]; try contradiction.
  cbn -[num2]. rewrite HM. reflexivity.
Qed.

(** Month lengths depend on the year only through [is_leap]. *)
Lemma days_in_month_leap (y m : Z) :
  days_in_month y m = days_in_month (if is_leap y then 2000 else 2001) m.
Proof. unfold days_in_month. destruct (is_leap y); reflexivity. Qed.

Lemma days_before_month_aux_leap (y : Z) (k : nat) :
  days_before_month_aux y k = days_before_month_aux (if is_leap y then 2000 else 2001) k.
Proof.
  induction k as [|k IH]; cbn [days_before_month_aux]; [reflexivity|].
  rewrite IH, (days_in_month_leap y). reflexivity.
Qed.

Lemma days_before_month_bounds (y m : Z) : 1 <= m <= 12 ->
  0 <= days_before_month y m /\ days_before_month y m + days_in_month y m <= 366.
Proof.
  intros Hm. unfold days_before_month.
  rewrite days_before_month_aux_leap, (days_in_month_leap y).
  assert (m = 1 \/ m = 2 \/ m = 3 \/ m = 4 \/ m = 5 \/ m = 6 \/ m = 7 \/ m = 8
          \/ m = 9 \/ m = 10 \/ m = 11 \/ m = 12) as Hc by lia.
  repeat destruct Hc as [-> | Hc]; try subst m;
    destruct (is_leap y); split; apply Z.leb_le; reflexivity.
Qed.

(** The day of the year of a date lies in [0, 365]. *)
Lemma yday0_bounds (d : date) : valid_date d = true -> 0 <= yday0 d <= 365.
Proof.
  intros Hv. apply valid_date_spec in Hv. destruct Hv as [_ [Hm Hd]].
  pose proof (days_before_month_bounds (year d) (month d) Hm).
  unfold yday0. lia.
Qed.

Lemma weekday_bounds (d : date) : 0 <= weekday d <= 6.
Proof. unfold weekday. Z.div_mod_to_equations. lia. Qed.

(** [%W] lies in [0, 53]. *)
Lemma week_W_bounds (d : date) : valid_date d = true -> 0 <= week_W d <= 53.
Proof.
  intros Hv. pose proof (yday0_bounds d Hv). pose proof (weekday_bounds d).
  unfold week_W. Z.div_mod_to_equations. lia.
Qed.

(** ** Streak claims *)

Definition now_2024_03_10 : date := mkdate 2024 3 10.

(** The completions of habit "h" on the 367 days ending 2024-03-10. *)
Definition cm_367_days : completions_map :=
  load_completions (store_with "daily" "alice" "h" (days_back 367 now_2024_03_10)) "alice".

(** C1 (amended). Let the [k]-th preceding period be the period key of the
    date reached from [now] by [k] backward steps of the loop (one day, seven
    days, or the same day of the previous calendar month). If the current
    period and the [N - 1] preceding ones hold a completion of the habit,
    the [N]-th preceding one does not, every date on the way exists, and
    [N <= 365], then [get_streak] returns [N]. *)
Theorem get_streak_run (habit_name habit_type : string) (cm : completions_map)
    (now : date) (N : nat) :
  (N <= 365)%nat ->
  (forall k, (k < N)%nat -> exists d, steps habit_type k now = Some d /\
     completed cm (get_period_key habit_type d) habit_name = true) ->
  (exists d, steps habit_type N now = Some d /\
     completed cm (get_period_key habit_type d) habit_name = false) ->
  get_streak habit_name habit_type cm now = Some N.
Proof.
  intros HN Hrun Hgap. unfold get_streak.
  apply (streak_loop_run habit_name habit_type cm now N HN Hrun Hgap 366 0 now);
    [lia|lia|reflexivity].
Qed.

(** The completions of the spec's example: 2024-03-08, 03-09 and 03-10. *)
Definition cm_example : completions_map :=
  load_completions (store_with "daily" "alice" "h"
    [mkdate 2024 3 8; mkdate 2024 3 9; now_2024_03_10]) "alice".

(** The spec's example: daily cadence, now 2024-03-10, completions on
    2024-03-08, 03-09 and 03-10 but not 03-07: streak 3. *)
Lemma get_streak_run_witness :
  get_streak "h" "daily" cm_example now_2024_03_10 = Some 3%nat.
Proof.
  apply (get_streak_run "h" "daily" cm_example now_2024_03_10 3).
  - lia.
  - intros k Hk.
    destruct k as [|[|[|k]]]; [| | |lia];
      (eexists; split; [vm_compute; reflexivity|vm_compute; reflexivity]).
  - eexists; split; [vm_compute; reflexivity|vm_compute; reflexivity].
Defined.

(** C1 fails as stated: 367 completed days give 366; a completed current
    month on 2024-03-31 with February not completed raises instead of giving
    1; on Monday 2022-01-03 the week before "2022-W01" is "2022-W00"
    (2022-01-01 and 02), which the seven-day step skips. *)
Lemma get_streak_run_counterexample :
  (forallb (fun k => match sub_days k now_2024_03_10 with
                     | Some d => completed cm_367_days (get_period_key "daily" d) "h"
                     | None => false end) (seq 0 367) = true /\
   (match sub_days 367 now_2024_03_10 with
    | Some d => completed cm_367_days (get_period_key "daily" d) "h"
    | None => true end) = false /\
   get_streak "h" "daily" cm_367_days now_2024_03_10 = Some 366%nat) /\
  (let cm := load_completions (store_with "monthly" "alice" "h" [mkdate 2024 3 31]) "alice" in
   get_period_key "monthly" (mkdate 2024 3 31) = "2024-03" /\
   completed cm "2024-03" "h" = true /\ completed cm "2024-02" "h" = false /\
   get_streak "h" "monthly" cm (mkdate 2024 3 31) = None) /\
  (let cm := load_completions (store_with "weekly" "alice" "h"
               [mkdate 2022 1 3; mkdate 2021 12 27]) "alice" in
   get_period_key "weekly" (mkdate 2022 1 3) = "2022-W01" /\
   get_period_key "weekly" (mkdate 2022 1 1) = "2022-W00" /\
   completed cm "2022-W01" "h" = true /\ completed cm "2022-W00" "h" = false /\
   get_streak "h" "weekly" cm (mkdate 2022 1 3) = Some 2%nat).
Proof. vm_compute. repeat split. Qed.

(** C4: when the current period holds no completion of the habit (in
    particular when the habit has none at all), the streak is 0. *)
Theorem get_streak_zero (habit_name habit_type : string) (cm : completions_map) (now : date) :
  completed cm (get_period_key habit_type now) habit_name = false ->
  get_streak habit_name habit_type cm now = Some 0%nat.
Proof. intros H. unfold get_streak. simpl. rewrite H. reflexivity. Qed.

Lemma get_streak_zero_witness :
  completed (load_completions (store_with "daily" "alice" "h" []) "alice")
    (get_period_key "weekly" now_2024_03_10) "h" = false /\
  get_streak "h" "weekly" (load_completions (store_with "daily" "alice" "h" []) "alice")
    now_2024_03_10 = Some 0%nat.
Proof.
  split; [vm_compute; reflexivity|].
  apply get_streak_zero. vm_compute. reflexivity.
Defined.

(** C2 (code_bug): with monthly cadence, [check_date.replace(month=..)]
    keeps the day of the month; from 2024-03-31 the date 2024-02-31 does
    not exist and [replace] raises [ValueError] out of [get_streak]. *)
Theorem get_streak_monthly_day31_raises :
  get_streak "h" "monthly"
    (load_completions (store_with "monthly" "alice" "h" [mkdate 2024 3 31]) "alice")
    (mkdate 2024 3 31) = None.
Proof. vm_compute. reflexivity. Qed.

(** C3 (code_bug): the guard [if streak > 365: break] runs after the
    increment, so 367 completed days give a streak of 366. *)
Theorem get_streak_cap_366 :
  get_streak "h" "daily" cm_367_days now_2024_03_10 = Some 366%nat.
Proof. vm_compute. reflexivity. Qed.

(** ** Period keys *)

(** C5 (corrected): on every date a [datetime] can hold, the daily key
    reads back as "Y-MM-DD" of the date, where Y is [%Y], the year in
    decimal without zero padding (glibc's [strftime]); the weekly key as
    "Y-W" followed by the two digits of [%W] (in [0, 53]); the monthly key
    as "Y-MM"; any other cadence gets the daily key. From year 1000 on the
    year has four digits and the keys are 10, 8 and 7 characters long.
    [get_period_key] is total: it raises nothing. *)
Theorem get_period_key_formats (d : date) :
  valid_date d = true ->
  parse_ymd (get_period_key "daily" d) = Some (year d, month d, day d) /\
  (parse_yW (get_period_key "weekly" d) = Some (year d, week_W d) /\ 0 <= week_W d <= 53) /\
  parse_ym (get_period_key "monthly" d) = Some (year d, month d) /\
  (forall habit_type : string, habit_type <> "daily" -> habit_type <> "weekly" ->
     habit_type <> "monthly" -> get_period_key habit_type d = get_period_key "daily" d) /\
  (1000 <= year d ->
     String.length (get_period_key "daily" d) = 10%nat /\
     String.length (get_period_key "weekly" d) = 8%nat /\
     String.length (get_period_key "monthly" d) = 7%nat).
Proof.
  intros Hv. pose proof (week_W_bounds d Hv) as HW.
  apply valid_date_spec in Hv. destruct Hv as [Hy [Hm Hd]].
  assert (days_in_month (year d) (month d) <= 31) by
    (unfold days_in_month; destruct (is_leap (year d)), (_ || _); repeat case_match; lia).
  split; [|split; [|split; [|split]]].
  - cbn -[fmt_ymd]. destruct d as [y m dd]. apply parse_ymd_fmt; cbn in *; lia.
  - cbn -[fmt_yW]. split; [|exact HW]. apply parse_yW_fmt; [reflexivity|reflexivity|lia|lia].
  - cbn -[fmt_ym]. destruct d as [y m dd]. apply parse_ym_fmt; cbn in *; lia.
  - intros habit_type H1 H2 H3. unfold get_period_key.
    apply String.eqb_neq in H1, H2, H3. rewrite H1, H2, H3. reflexivity.
  - intros H1000.
    assert (HY : exists a b c e, fmt_Y (year d) = String a (String b (String c (String e EmptyString)))).
    { unfold fmt_Y. destruct (Z.ltb_spec (year d) 10); [lia|].
      destruct (Z.ltb_spec (year d) 100); [lia|]. destruct (Z.ltb_spec (year d) 1000); [lia|].
      do 4 eexists. reflexivity. }
    destruct HY as (a & b & c & e & HY).
    unfold get_period_key, fmt_ymd, fmt_yW, fmt_ym. rewrite HY.
    split; [|split]; reflexivity.
Qed.

Lemma get_period_key_formats_witness :
  valid_date now_2024_03_10 = true /\
  parse_ymd (get_period_key "daily" now_2024_03_10) = Some (2024, 3, 10) /\
  parse_yW (get_period_key "weekly" now_2024_03_10) = Some (2024, 10) /\
  parse_ym (get_period_key "monthly" now_2024_03_10) = Some (2024, 3) /\
  get_period_key "yearly" now_2024_03_10 = "2024-03-10" /\
  String.length (get_period_key "daily" now_2024_03_10) = 10%nat /\
  valid_date (mkdate 5 1 1) = true /\
  parse_ymd (get_period_key "daily" (mkdate 5 1 1)) = Some (5, 1, 1).
Proof.
  assert (Hv : valid_date now_2024_03_10 = true) by reflexivity.
  destruct (get_period_key_formats now_2024_03_10 Hv) as [H1 [[H2 _] [H3 [H4 H5]]]].
  split; [exact Hv|]. split; [exact H1|]. split; [exact H2|]. split; [exact H3|].
  split; [rewrite (H4 "yearly"); [reflexivity|discriminate|discriminate|discriminate]|].
  split; [apply H5; vm_compute; discriminate|].
  assert (Hv5 : valid_date (mkdate 5 1 1) = true) by reflexivity.
  split; [exact Hv5|]. exact (proj1 (get_period_key_formats (mkdate 5 1 1) Hv5)).
Defined.

(** C5 as stated fails before year 1000: [%Y] is left to the C library,
    and glibc does not pad it, so on 0005-01-01 the daily key is
    "5-01-01", not "YYYY-MM-DD", and the monthly key is "5-01". *)
Lemma get_period_key_short_year :
  valid_date (mkdate 5 1 1) = true /\
  get_period_key "daily" (mkdate 5 1 1) = "5-01-01" /\
  get_period_key "monthly" (mkdate 5 1 1) = "5-01".
Proof. vm_compute. repeat split. Qed.

(** ** Lemmas on the tables *)

Lemma filter_delete_where {A} (sel : A -> bool) (l : list A) :
  List.filter sel (delete_where sel l) = [].
Proof.
  induction l as [|r l IH]; [reflexivity|]. unfold delete_where in *; cbn.
  destruct (sel r) eqn:E; cbn; [exact IH|]. rewrite E. exact IH.
Qed.

(** Rows of another owner survive a delete and an insert made for
    [username]. *)
Lemma filter_owner_delete {A} (owner : A -> string) (sel : A -> bool) (l : list A)
    (username other : string) :
  username <> other -> (forall r, sel r = true -> owner r = username) ->
  List.filter (fun r => String.eqb (owner r) other) (delete_where sel l) =
  List.filter (fun r => String.eqb (owner r) other) l.
Proof.
  intros Hne Hsel. induction l as [|r l IH]; [reflexivity|]. unfold delete_where in *; cbn.
  destruct (sel r) eqn:E; cbn.
  - rewrite (Hsel r E). apply String.eqb_neq in Hne. rewrite Hne. exact IH.
  - destruct (String.eqb (owner r) other); [f_equal|]; exact IH.
Qed.

Lemma filter_owner_insert {A} (owner : A -> string) (row : A) (l : list A) (other : string) :
  owner row <> other ->
  List.filter (fun r => String.eqb (owner r) other) (insert_row row l) =
  List.filter (fun r => String.eqb (owner r) other) l.
Proof.
  intros Hne. unfold insert_row. rewrite List.filter_app. cbn.
  apply String.eqb_neq in Hne. rewrite Hne. apply app_nil_r.
Qed.

Lemma andb3_true (a b c : bool) : a && b && c = true -> a = true /\ b = true /\ c = true.
Proof. destruct a, b, c; cbn; intuition discriminate. Qed.

Lemma count_completions_insert (s : store) (username period_key habit_name : string) :
  count_completions (toggle_completion s username period_key habit_name true)
    username habit_name period_key = S (count_completions s username habit_name period_key).
Proof.
  unfold count_completions, toggle_completion, insert_row; cbn.
  rewrite List.filter_app, length_app. cbn.
  rewrite !String.eqb_refl. cbn. lia.
Qed.

(** ** Completions and habits *)

(** C6: whatever the store holds, toggling a completion off and then on
    leaves exactly one record for [(username, habit_name, period_key)]. *)
Theorem toggle_off_on_one_record (s : store) (username period_key habit_name : string) :
  count_completions
    (toggle_completion (toggle_completion s username period_key habit_name false)
       username period_key habit_name true) username habit_name period_key = 1%nat.
Proof.
  rewrite count_completions_insert.
  unfold count_completions, toggle_completion; cbn.
  rewrite filter_delete_where. reflexivity.
Qed.

(** C7: after [remove_habit], no habit row of that name and user and no
    completion row of that habit name and user is left. *)
Theorem remove_habit_cascade (s : store) (username habit_name : string) :
  List.filter (fun r => String.eqb (h_name r) habit_name && String.eqb (h_username r) username)
    (habits (remove_habit s username habit_name)) = [] /\
  List.filter (fun r => String.eqb (c_habit_name r) habit_name && String.eqb (c_username r) username)
    (completions (remove_habit s username habit_name)) = [].
Proof.
  unfold remove_habit; cbn. split; apply filter_delete_where.
Qed.

(** C9: [toggle_completion] with [is_completed = True] always adds a row,
    whether or not one exists; two calls from a store already holding the
    record leave more than one (three) records, two calls from an empty
    store leave two. *)
Theorem toggle_on_duplicates :
  (forall (s : store) (username period_key habit_name : string),
     count_completions (toggle_completion s username period_key habit_name true)
       username habit_name period_key = S (count_completions s username habit_name period_key)) /\
  (exists (s : store) (username period_key habit_name : string),
     count_completions s username habit_name period_key = 1%nat /\
     count_completions
       (toggle_completion (toggle_completion s username period_key habit_name true)
          username period_key habit_name true) username habit_name period_key = 3%nat) /\
  (exists (s : store) (username period_key habit_name : string),
     count_completions s username habit_name period_key = 0%nat /\
     count_completions
       (toggle_completion (toggle_completion s username period_key habit_name true)
          username period_key habit_name true) username habit_name period_key = 2%nat).
Proof.
  split; [exact count_completions_insert|]. split.
  - exists (store_with "daily" "alice" "h" [now_2024_03_10]), "alice", "2024-03-10", "h".
    split; vm_compute; reflexivity.
  - exists (store_with "daily" "alice" "h" []), "alice", "2024-03-10", "h".
    split; vm_compute; reflexivity.
Qed.

(** C10: for a user [other] distinct from [username], [remove_habit] and
    [toggle_completion] run for [username] change none of [other]'s habit
    and completion rows, whatever the habit names. *)
Theorem ops_frame_other_user (s : store) (username other habit_name period_key : string)
    (is_completed : bool) :
  username <> other ->
  habits_of (remove_habit s username habit_name) other = habits_of s other /\
  completions_of (remove_habit s username habit_name) other = completions_of s other /\
  habits_of (toggle_completion s username period_key habit_name is_completed) other =
    habits_of s other /\
  completions_of (toggle_completion s username period_key habit_name is_completed) other =
    completions_of s other.
Proof.
  intros Hne. unfold habits_of, completions_of, remove_habit, toggle_completion.
  split; [|split; [|split]]; cbn.
  - apply (filter_owner_delete _ _ _ username); [exact Hne|].
    intros r Hr. apply andb_true_iff in Hr as [_ Hr]. apply String.eqb_eq in Hr. exact Hr.
  - apply (filter_owner_delete _ _ _ username); [exact Hne|].
    intros r Hr. apply andb_true_iff in Hr as [_ Hr]. apply String.eqb_eq in Hr. exact Hr.
  - destruct is_completed; reflexivity.
  - destruct is_completed; cbn.
    + apply (filter_owner_insert c_username); exact Hne.
    + apply (filter_owner_delete _ _ _ username); [exact Hne|].
      intros r Hr. apply andb3_true in Hr as [_ [_ Hr]]. apply String.eqb_eq in Hr. exact Hr.
Qed.

(** Both users own a habit named "h" with a completion on 2024-03-10. *)
Definition two_users_store : store :=
  mk_store [] []
    [mk_habit_row "h" "alice" "daily" 0; mk_habit_row "h" "bob" "daily" 0]
    [mk_completion_row "2024-03-10" "h" "alice"; mk_completion_row "2024-03-10" "h" "bob"].

Lemma ops_frame_other_user_witness :
  "alice" <> "bob" /\
  habits_of (remove_habit two_users_store "alice" "h") "bob" = habits_of two_users_store "bob" /\
  completions_of (remove_habit two_users_store "alice" "h") "bob" =
    completions_of two_users_store "bob" /\
  habits_of (toggle_completion two_users_store "alice" "2024-03-10" "h" false) "bob" =
    habits_of two_users_store "bob" /\
  completions_of (toggle_completion two_users_store "alice" "2024-03-10" "h" false) "bob" =
    completions_of two_users_store "bob".
Proof.
  assert (Hne : "alice" <> "bob") by discriminate.
  split; [exact Hne|].
  exact (ops_frame_other_user two_users_store "alice" "bob" "h" "2024-03-10" false Hne).
Defined.

(** ** Signup *)

(** With unique codes, a code that passes [verify_access_code] has no row
    marked used. *)
Lemma verified_code_not_consumed (s : store) (code : string) :
  NoDup (List.map ac_code (access_codes s)) ->
  verify_access_code s code = true -> code_consumed s code = false.
Proof.
  unfold verify_access_code, code_consumed. generalize (access_codes s) as l.
  induction l as [|r l IH]; intros Hnd Hv; [reflexivity|].
  cbn in *. inversion Hnd as [|? ? Hnotin Hnd']; subst.
  destruct (String.eqb (ac_code r) code) eqn:Ec; cbn in *.
  - apply String.eqb_eq in Ec. subst code.
    destruct (ac_used r); cbn in *.
    + exfalso. apply existsb_exists in Hv as [r' [Hin Hr']].
      apply andb_true_iff in Hr' as [Hc _]. apply String.eqb_eq in Hc.
      apply Hnotin. rewrite <- Hc. apply list_elem_of_In, in_map. exact Hin.
    + apply not_true_is_false. intros Hc.
      apply existsb_exists in Hc as [r' [Hin Hr']].
      apply andb_true_iff in Hr' as [Hc _]. apply String.eqb_eq in Hc.
      apply Hnotin. rewrite <- Hc. apply list_elem_of_In, in_map. exact Hin.
  - apply IH; assumption.
Qed.

Lemma user_exists_insert (s : store) (username password_hash : string) :
  user_exists (set_users s (insert_row (mk_user_row username password_hash) (users s))) username
  = true.
Proof.
  unfold user_exists, insert_row; cbn. rewrite existsb_app. cbn.
  rewrite String.eqb_refl, orb_true_r. reflexivity.
Qed.

(** The handler writes only through [signup_create], and only after the
    username was found free and the code unused. *)
Lemma signup_writes_last (hash_password : string -> string) (insert_ok : bool) (s : store)
    (username password password_confirm code : string) :
  fst (signup hash_password insert_ok s username password password_confirm code) = [s] \/
  (signup hash_password insert_ok s username password password_confirm code =
     signup_create hash_password insert_ok s username password code /\
   user_exists s username = false /\ verify_access_code s code = true).
Proof.
  unfold signup.
  destruct (existsb _ _); [left; reflexivity|].
  destruct (Nat.ltb _ _); [left; reflexivity|].
  destruct (negb _); [left; reflexivity|].
  destruct (user_exists s username) eqn:Eu; [left; reflexivity|].
  destruct (verify_access_code s code) eqn:Ev; cbn; [right; auto|left; reflexivity].
Qed.

(** C8: in the signup flow the user row is written first and the code is
    marked only after [create_user] succeeded. Stopped after any write
    call, the store never has the code consumed without the user; stopped
    between the two calls it has the new user and the code unused; when
    [create_user] fails nothing is written. *)
Theorem signup_user_before_code (hash_password : string -> string) (insert_ok : bool)
    (s : store) (username password code : string) (trace : list store) (msg : string) :
  NoDup (List.map ac_code (access_codes s)) ->
  verify_access_code s code = true ->
  signup_create hash_password insert_ok s username password code = (trace, msg) ->
  (forall s', In s' trace -> code_consumed s' code = true -> user_exists s' username = true) /\
  (insert_ok = true -> exists s1, trace = [s; s1; mark_access_code_used s1 code username] /\
     user_exists s1 username = true /\ code_consumed s1 code = false) /\
  (insert_ok = false -> forall s', In s' trace -> s' = s).
Proof.
  intros Hnd Hv Hsc. pose proof (verified_code_not_consumed s code Hnd Hv) as Hfree.
  unfold signup_create, create_user in Hsc.
  destruct insert_ok; injection Hsc as <- <-.
  - set (s1 := set_users s _).
    assert (Hu1 : user_exists s1 username = true) by apply user_exists_insert.
    assert (Hc1 : code_consumed s1 code = false) by exact Hfree.
    split; [|split; [|discriminate]].
    + intros s' Hin Hc. destruct Hin as [<- | [<- | [<- | []]]].
      * rewrite Hfree in Hc. discriminate.
      * exact Hu1.
      * exact Hu1.
    + intros _. exists s1. auto.
  - split; [|split; [discriminate|]].
    + intros s' Hin Hc. destruct Hin as [<- | [<- | []]]; rewrite Hfree in Hc; discriminate.
    + intros _ s' Hin. destruct Hin as [<- | [<- | []]]; reflexivity.
Qed.

(** One unused access code "XK42" and no user yet. *)
Definition signup_store : store :=
  mk_store [] [mk_access_code_row "XK42" false ""] [] [].

Lemma signup_user_before_code_witness :
  let r := signup_create (fun p => p) true signup_store "alice" "secret1" "XK42" in
  NoDup (List.map ac_code (access_codes signup_store)) /\
  verify_access_code signup_store "XK42" = true /\
  (forall s', In s' (fst r) -> code_consumed s' "XK42" = true -> user_exists s' "alice" = true).
Proof.
  intros r.
  assert (Hnd : NoDup (List.map ac_code (access_codes signup_store)))
    by (cbn; apply NoDup_singleton).
  assert (Hv : verify_access_code signup_store "XK42" = true) by reflexivity.
  split; [exact Hnd|]. split; [exact Hv|].
  destruct (signup_user_before_code (fun p => p) true signup_store "alice" "secret1" "XK42"
              (fst r) (snd r) Hnd Hv eq_refl) as [H _].
  exact H.
Defined.

(** ** Calendar arithmetic of the model *)

Lemma days_before_month_succ (y m : Z) : 1 <= m ->
  days_before_month y (m + 1) = days_before_month y m + days_in_month y m.
Proof.
  intros Hm. unfold days_before_month.
  replace (Z.to_nat (m + 1 - 1)) with (S (Z.to_nat (m - 1))) by lia.
  cbn [days_before_month_aux]. f_equal. f_equal. lia.
Qed.

Lemma div_step (z k : Z) : 0 < k ->
  z / k - (z - 1) / k = if Z.eqb (z mod k) 0 then 1 else 0.
Proof.
  intros Hk. destruct (Z.eqb (z mod k) 0) eqn:E;
    [apply Z.eqb_eq in E | apply Z.eqb_neq in E]; Z.div_mod_to_equations; nia.
Qed.

(** A year has 365 days, 366 in a leap year. *)
Lemma days_before_year_succ (z : Z) :
  days_before_year (z + 1) = days_before_year z + 365 + (if is_leap z then 1 else 0).
Proof.
  unfold days_before_year. replace (z + 1 - 1) with z by lia.
  pose proof (div_step z 4 ltac:(lia)) as H4.
  pose proof (div_step z 100 ltac:(lia)) as H100.
  pose proof (div_step z 400 ltac:(lia)) as H400.
  unfold is_leap.
  destruct (Z.eqb (z mod 4) 0) eqn:E4, (Z.eqb (z mod 100) 0) eqn:E100,
    (Z.eqb (z mod 400) 0) eqn:E400; cbn; try lia;
  repeat match goal with
  | H : Z.eqb _ _ = true |- _ => apply Z.eqb_eq in H
  | H : Z.eqb _ _ = false |- _ => apply Z.eqb_neq in H
  end; exfalso; Z.div_mod_to_equations; lia.
Qed.

Lemma days_in_month_bounds (y m : Z) : 28 <= days_in_month y m <= 31.
Proof.
  unfold days_in_month. destruct (Z.eqb m 2); [destruct (is_leap y); lia|].
  destruct (_ || _); lia.
Qed.

(** [d - timedelta(days=1)] on a valid date: a valid date one day earlier,
    or [OverflowError] exactly on 0001-01-01. *)
Lemma prev_day_spec (d : date) : valid_date d = true ->
  match prev_day d with
  | Some d' => valid_date d' = true /\ toordinal d' = toordinal d - 1
  | None => toordinal d = 1
  end.
Proof.
  intros Hv. pose proof (valid_date_spec d Hv) as [Hy [Hm Hd]].
  destruct d as [y m dd]; cbn [year month day] in *.
  unfold prev_day; cbn [year month day].
  destruct (1 <? dd) eqn:E1; [apply Z.ltb_lt in E1|apply Z.ltb_ge in E1].
  - split.
    + unfold valid_date; cbn [year month day].
      repeat rewrite andb_true_iff; repeat rewrite Z.leb_le. lia.
    + unfold toordinal; cbn [year month day]. lia.
  - destruct (1 <? m) eqn:E2; [apply Z.ltb_lt in E2|apply Z.ltb_ge in E2].
    + pose proof (days_in_month_bounds y (m - 1)). split.
      * unfold valid_date; cbn [year month day].
        repeat rewrite andb_true_iff; repeat rewrite Z.leb_le. lia.
      * unfold toordinal; cbn [year month day].
        replace (days_before_month y m) with (days_before_month y (m - 1 + 1))
          by (f_equal; lia).
        rewrite days_before_month_succ by lia. lia.
    + destruct (1 <? y) eqn:E3; [apply Z.ltb_lt in E3|apply Z.ltb_ge in E3].
      * split; [unfold valid_date; cbn; repeat rewrite andb_true_iff;
                repeat rewrite Z.leb_le; lia|].
        unfold toordinal; cbn [year month day].
        replace m with 1 by lia. replace dd with 1 by lia.
        assert (Hy1 : days_before_year y = days_before_year (y - 1) + 365
                        + (if is_leap (y - 1) then 1 else 0))
          by (rewrite <- days_before_year_succ; f_equal; lia).
        rewrite Hy1.
        unfold days_before_month. rewrite days_before_month_aux_leap.
        change (days_before_month_aux y (Z.to_nat (1 - 1))) with 0.
        destruct (is_leap (y - 1));
          [change (days_before_month_aux 2000 (Z.to_nat (12 - 1))) with 335
          |change (days_before_month_aux 2001 (Z.to_nat (12 - 1))) with 334]; lia.
      * unfold toordinal; cbn [year month day].
        replace y with 1 by lia. replace m with 1 by lia. replace dd with 1 by lia.
        reflexivity.
Qed.

(** [d - timedelta(days=n)] stays valid and moves the ordinal by [n] as
    long as it stays after 0001-01-01. *)
Lemma sub_days_spec (n : nat) (d : date) :
  valid_date d = true -> Z.of_nat n < toordinal d ->
  exists d', sub_days n d = Some d' /\ valid_date d' = true /\
             toordinal d' = toordinal d - Z.of_nat n.
Proof.
  revert d; induction n as [|n IH]; intros d Hv Hn.
  - exists d. cbn. repeat split; [exact Hv|lia].
  - cbn [sub_days]. pose proof (prev_day_spec d Hv) as Hp.
    destruct (prev_day d) as [d1|]; [|lia].
    destruct Hp as [Hv1 Ho1].
    destruct (IH d1 Hv1 ltac:(lia)) as [d' [Hs [Hv' Ho']]].
    exists d'. repeat split; [exact Hs|exact Hv'|lia].
Qed.

(** ** More on get_streak *)

Lemma streak_loop_ge (fuel : nat) habit_name habit_type (cm : completions_map)
    (streak : nat) (d : date) (r : nat) :
  streak_loop fuel habit_name habit_type cm streak d = Some r -> (streak <= r)%nat.
Proof.
  revert streak d; induction fuel as [|fuel IH]; intros streak d Hr; simpl in Hr.
  - injection Hr as <-; lia.
  - destruct (completed _ _ _); [|injection Hr as <-; lia].
    destruct (step_back habit_type d) as [d'|]; [|discriminate].
    destruct (Nat.ltb 365 (S streak)); [injection Hr as <-; lia|].
    specialize (IH _ _ Hr). lia.
Qed.

(** A daily or weekly step from a date more than seven days after
    0001-01-01 succeeds and goes back at most seven days. *)
Lemma step_back_daily_weekly (habit_type : string) (d : date) :
  habit_type = "daily" \/ habit_type = "weekly" ->
  valid_date d = true -> 7 < toordinal d ->
  exists d', step_back habit_type d = Some d' /\ valid_date d' = true /\
             toordinal d - 7 <= toordinal d'.
Proof.
  intros Ht Hv Ho. destruct Ht as [-> | ->];
    [change (step_back "daily" d) with (sub_days 1 d)
    |change (step_back "weekly" d) with (sub_days 7 d)].
  - destruct (sub_days_spec 1 d Hv ltac:(lia)) as [d' [H1 [H2 H3]]].
    exists d'. rewrite H1. repeat split; [exact H2|lia].
  - destruct (sub_days_spec 7 d Hv ltac:(lia)) as [d' [H1 [H2 H3]]].
    exists d'. rewrite H1. repeat split; [exact H2|lia].
Qed.

Lemma streak_loop_daily_weekly_no_error (fuel : nat) habit_name habit_type
    (cm : completions_map) (streak : nat) (d : date) :
  habit_type = "daily" \/ habit_type = "weekly" ->
  valid_date d = true -> (streak <= 365)%nat ->
  7 * (366 - Z.of_nat streak) < toordinal d ->
  streak_loop fuel habit_name habit_type cm streak d <> None.
Proof.
  intros Ht. revert streak d.
  induction fuel as [|fuel IH]; intros streak d Hv Hs Ho; simpl; [discriminate|].
  destruct (completed _ _ _); [|discriminate].
  destruct (step_back_daily_weekly habit_type d Ht Hv ltac:(lia)) as [d' [-> [Hv' Ho']]].
  destruct (Nat.ltb 365 (S streak)) eqn:Hlt; [discriminate|].
  apply Nat.ltb_ge in Hlt. apply IH; [exact Hv'|lia|lia].
Qed.

(** X1: daily and weekly streaks never raise once [now] is in year 9 or
    later: the loop goes back at most 366 steps of at most 7 days, all
    after 0001-01-01. *)
Theorem get_streak_daily_weekly_no_error (habit_name habit_type : string)
    (cm : completions_map) (now : date) :
  habit_type = "daily" \/ habit_type = "weekly" ->
  valid_date now = true -> 9 <= year now ->
  get_streak habit_name habit_type cm now <> None.
Proof.
  intros Ht Hv Hy. apply streak_loop_daily_weekly_no_error; [exact Ht|exact Hv|lia|].
  pose proof (valid_date_spec now Hv) as [_ [Hm Hd]].
  pose proof (days_before_month_bounds (year now) (month now) Hm) as [Hb _].
  unfold toordinal, days_before_year. Z.div_mod_to_equations. lia.
Qed.

Lemma get_streak_daily_weekly_no_error_witness :
  get_streak "h" "daily" cm_367_days now_2024_03_10 <> None /\
  get_streak "h" "weekly"
    (load_completions (store_with "weekly" "alice" "h" (days_back 30 now_2024_03_10)) "alice")
    now_2024_03_10 <> None.
Proof.
  split.
  - apply get_streak_daily_weekly_no_error; [left; reflexivity|reflexivity|cbn; lia].
  - apply get_streak_daily_weekly_no_error; [right; reflexivity|reflexivity|cbn; lia].
Defined.

Lemma streak_loop_same_date (fuel : nat) habit_name habit_type (cm : completions_map)
    (streak : nat) (d : date) :
  step_back habit_type d = Some d -> (streak <= 365)%nat -> (366 <= streak + fuel)%nat ->
  completed cm (get_period_key habit_type d) habit_name = true ->
  streak_loop fuel habit_name habit_type cm streak d = Some 366%nat.
Proof.
  intros Hst. revert streak.
  induction fuel as [|fuel IH]; intros streak Hs Hf Hc; [lia|].
  simpl. rewrite Hc, Hst.
  destruct (Nat.ltb 365 (S streak)) eqn:Hlt.
  - apply Nat.ltb_lt in Hlt. f_equal. lia.
  - apply Nat.ltb_ge in Hlt. apply IH; [lia|lia|exact Hc].
Qed.

(** X2: for a cadence other than daily, weekly and monthly the loop never
    moves [check_date]: the streak is 0 when the current key holds no
    completion and 366 (the guard) when it holds one. *)
Theorem get_streak_unknown_cadence (habit_name habit_type : string) (cm : completions_map)
    (now : date) :
  habit_type <> "daily" -> habit_type <> "weekly" -> habit_type <> "monthly" ->
  get_streak habit_name habit_type cm now =
  Some (if completed cm (get_period_key habit_type now) habit_name then 366%nat else 0%nat).
Proof.
  intros H1 H2 H3.
  assert (Hst : step_back habit_type now = Some now).
  { unfold step_back. apply String.eqb_neq in H1, H2, H3. rewrite H1, H2, H3. reflexivity. }
  destruct (completed cm (get_period_key habit_type now) habit_name) eqn:Hc.
  - apply streak_loop_same_date; [exact Hst|lia|lia|exact Hc].
  - unfold get_streak. simpl. rewrite Hc. reflexivity.
Qed.

Lemma get_streak_unknown_cadence_witness :
  get_streak "h" "yearly"
    (load_completions (store_with "yearly" "alice" "h" [now_2024_03_10]) "alice")
    now_2024_03_10 = Some 366%nat.
Proof.
  rewrite get_streak_unknown_cadence by discriminate. vm_compute. reflexivity.
Defined.

Lemma streak_loop_monotone (fuel : nat) habit_name habit_type (cm cm' : completions_map)
    (streak : nat) (d : date) (a b : nat) :
  (forall period_key name, completed cm period_key name = true ->
                           completed cm' period_key name = true) ->
  streak_loop fuel habit_name habit_type cm streak d = Some a ->
  streak_loop fuel habit_name habit_type cm' streak d = Some b -> (a <= b)%nat.
Proof.
  intros Hsub. revert streak d.
  induction fuel as [|fuel IH]; intros streak d Ha Hb; simpl in Ha, Hb.
  - injection Ha as <-; injection Hb as <-; lia.
  - destruct (completed cm _ _) eqn:Hc.
    + rewrite (Hsub _ _ Hc) in Hb.
      destruct (step_back habit_type d) as [d'|]; [|discriminate].
      destruct (Nat.ltb 365 (S streak)).
      * injection Ha as <-; injection Hb as <-; lia.
      * exact (IH _ _ Ha Hb).
    + injection Ha as <-.
      destruct (completed cm' _ _); [|injection Hb as <-; lia].
      destruct (step_back habit_type d) as [d'|]; [|discriminate].
      destruct (Nat.ltb 365 (S streak)); [injection Hb as <-; lia|].
      apply streak_loop_ge in Hb. lia.
Qed.

(** ** Period keys of consecutive steps *)

Lemma valid_date_bounds99 (d : date) : valid_date d = true ->
  1 <= year d <= 9999 /\ 0 <= month d <= 99 /\ 0 <= day d <= 99.
Proof.
  intros Hv. pose proof (valid_date_spec d Hv) as [Hy [Hm Hd]].
  pose proof (days_in_month_bounds (year d) (month d)). lia.
Qed.

Lemma parse_ymd_key (d : date) : valid_date d = true ->
  parse_ymd (fmt_ymd d) = Some (year d, month d, day d).
Proof.
  intros Hv. pose proof (valid_date_bounds99 d Hv).
  destruct d as [y m dd]; cbn in *. apply parse_ymd_fmt; lia.
Qed.

Lemma parse_ym_key (d : date) : valid_date d = true ->
  parse_ym (fmt_ym d) = Some (year d, month d).
Proof.
  intros Hv. pose proof (valid_date_bounds99 d Hv).
  destruct d as [y m dd]; cbn in *. apply parse_ym_fmt; lia.
Qed.

Lemma parse_yW_key (d : date) : valid_date d = true ->
  parse_yW (fmt_yW d) = Some (year d, week_W d).
Proof.
  intros Hv. pose proof (valid_date_bounds99 d Hv). pose proof (week_W_bounds d Hv).
  apply parse_yW_fmt; [reflexivity|reflexivity|lia|lia].
Qed.

Lemma toordinal_yday0 (d : date) : toordinal d = days_before_year (year d) + yday0 d + 1.
Proof. unfold toordinal, yday0. lia. Qed.

Lemma sub_days_some (k : nat) (e e' : date) :
  valid_date e = true -> sub_days k e = Some e' ->
  valid_date e' = true /\ toordinal e' = toordinal e - Z.of_nat k.
Proof.
  revert e; induction k as [|k IH]; intros e He Hk; cbn in Hk.
  - injection Hk as <-. split; [exact He|lia].
  - pose proof (prev_day_spec e He) as Hp.
    destruct (prev_day e) as [e1|]; [|discriminate]. destruct Hp as [Hv1 Ho1].
    destruct (IH e1 Hv1 Hk) as [Hv' Ho']. split; [exact Hv'|lia].
Qed.

(** X4: one backward step of the [get_streak] loop always reaches a
    different period key for the three cadences, so no period is counted
    twice. *)
Theorem step_back_new_key (habit_type : string) (d d' : date) :
  habit_type = "daily" \/ habit_type = "weekly" \/ habit_type = "monthly" ->
  valid_date d = true -> step_back habit_type d = Some d' ->
  get_period_key habit_type d' <> get_period_key habit_type d.
Proof.
  intros Ht Hv Hs Heq. destruct Ht as [-> | [-> | ->]].
  - change (step_back "daily" d) with (sub_days 1 d) in Hs.
    destruct (sub_days_some 1 d d' Hv Hs) as [Hv' Ho].
    change (fmt_ymd d' = fmt_ymd d) in Heq.
    apply (f_equal parse_ymd) in Heq. rewrite !parse_ymd_key in Heq by assumption.
    injection Heq as Ey Em Edd. unfold toordinal in Ho. rewrite Ey, Em, Edd in Ho. lia.
  - change (step_back "weekly" d) with (sub_days 7 d) in Hs.
    destruct (sub_days_some 7 d d' Hv Hs) as [Hv' Ho].
    change (fmt_yW d' = fmt_yW d) in Heq.
    apply (f_equal parse_yW) in Heq. rewrite !parse_yW_key in Heq by assumption.
    injection Heq as Ey EW.
    rewrite !toordinal_yday0, Ey in Ho.
    unfold week_W, weekday in EW. rewrite !toordinal_yday0, Ey in EW.
    replace (yday0 d') with (yday0 d - 7) in EW by lia.
    Z.div_mod_to_equations. lia.
  - change (fmt_ym d' = fmt_ym d) in Heq.
    change (step_back "monthly" d) with
      (if Z.eqb (month d) 1 then replace_ym d (year d - 1) 12
       else replace_ym d (year d) (month d - 1)) in Hs.
    assert (Hv' : valid_date d' = true /\ (year d' <> year d \/ month d' <> month d)).
    { unfold replace_ym in Hs.
      destruct (Z.eqb (month d) 1) eqn:E1; cbv zeta in Hs.
      - destruct (valid_date (mkdate (year d - 1) 12 (day d))) eqn:Ev; [|discriminate].
        injection Hs as <-. split; [exact Ev|left; cbn; lia].
      - destruct (valid_date (mkdate (year d) (month d - 1) (day d))) eqn:Ev; [|discriminate]. injection Hs as <-.
        split; [exact Ev|right; cbn; lia]. }
    destruct Hv' as [Hv' Hne].
    apply (f_equal parse_ym) in Heq. rewrite !parse_ym_key in Heq by assumption.
    injection Heq as Ey Em. lia.
Qed.

Lemma step_back_new_key_witness :
  get_period_key "weekly" (mkdate 2024 3 3) <> get_period_key "weekly" now_2024_03_10.
Proof.
  apply (step_back_new_key "weekly" now_2024_03_10 (mkdate 2024 3 3));
    [right; left; reflexivity|reflexivity|vm_compute; reflexivity].
Defined.

(** ** load_completions and the habit cards *)

Lemma completed_names_at (cm : completions_map) (period_key habit_name : string) :
  completed cm period_key habit_name = existsb (String.eqb habit_name) (names_at cm period_key).
Proof. unfold completed, names_at. destruct (cm !! period_key); reflexivity. Qed.

Lemma names_at_insert (cm : completions_map) (k period_key : string) (l : list string) :
  names_at (<[k := l]> cm) period_key = if String.eqb k period_key then l else names_at cm period_key.
Proof.
  unfold names_at. destruct (String.eqb_spec k period_key) as [<-|Hne].
  - rewrite lookup_insert_eq. reflexivity.
  - rewrite lookup_insert_ne by exact Hne. reflexivity.
Qed.

(** The names [load_completions] files under a key: those of the user's
    rows with that key, in row order. *)
Lemma names_at_fold (rows : list completion_row) (acc : completions_map) (period_key : string) :
  names_at (fold_left load_step rows acc) period_key =
  names_at acc period_key ++
  List.map c_habit_name (List.filter (fun r => String.eqb (c_period_key r) period_key) rows).
Proof.
  revert acc. induction rows as [|r rows IH]; intros acc; cbn [fold_left List.filter List.map].
  - rewrite app_nil_r. reflexivity.
  - rewrite IH. unfold load_step. fold (names_at acc (c_period_key r)). rewrite names_at_insert.
    destruct (String.eqb_spec (c_period_key r) period_key) as [<-|Hne]; cbn.
    + rewrite <- app_assoc. reflexivity.
    + reflexivity.
Qed.

(** The names [load_completions] files under a key: those of the user's
    rows with that key, in row order. *)
Lemma names_at_load (s : store) (username period_key : string) :
  names_at (load_completions s username) period_key =
  List.map c_habit_name (List.filter (fun r => String.eqb (c_period_key r) period_key)
                           (completions_of s username)).
Proof. unfold load_completions. rewrite names_at_fold. reflexivity. Qed.

Lemma completed_load (s : store) (username period_key habit_name : string) :
  completed (load_completions s username) period_key habit_name =
  existsb (fun r => String.eqb (c_period_key r) period_key && String.eqb (c_habit_name r) habit_name
                    && String.eqb (c_username r) username) (completions s).
Proof.
  rewrite completed_names_at, names_at_load. unfold completions_of.
  induction (completions s) as [|r l IH]; [reflexivity|]. cbn [List.filter existsb].
  destruct (String.eqb (c_username r) username) eqn:Hu;
    [cbn [List.filter]; destruct (String.eqb (c_period_key r) period_key) eqn:Hk|];
    cbn [List.map existsb]; rewrite ?Hu, ?Hk, ?IH, ?andb_true_r, ?andb_false_r; try reflexivity.
  cbn. rewrite (String.eqb_sym habit_name). reflexivity.
Qed.

Lemma completed_load_In (s : store) (username period_key habit_name : string) :
  completed (load_completions s username) period_key habit_name = true <->
  In (mk_completion_row period_key habit_name username) (completions s).
Proof.
  rewrite completed_load, existsb_exists. split.
  - intros [[k h u] [Hin Hr]]. cbn in Hr.
    apply andb3_true in Hr as [Hk [Hh Hu]].
    apply String.eqb_eq in Hk, Hh, Hu. subst. exact Hin.
  - intros Hin. exists (mk_completion_row period_key habit_name username). split; [exact Hin|].
    cbn. rewrite !String.eqb_refl. reflexivity.
Qed.

(** X3: more completions never give a shorter streak: if every completed
    (period, habit) pair of [cm] is completed in [cm'] and both streaks are
    computed without error, the first is at most the second. *)
Theorem get_streak_monotone (habit_name habit_type : string) (cm cm' : completions_map)
    (now : date) (a b : nat) :
  (forall period_key name, completed cm period_key name = true ->
                           completed cm' period_key name = true) ->
  get_streak habit_name habit_type cm now = Some a ->
  get_streak habit_name habit_type cm' now = Some b -> (a <= b)%nat.
Proof. apply streak_loop_monotone. Qed.

Definition cm_two_days : completions_map :=
  load_completions (store_with "daily" "alice" "h" [mkdate 2024 3 9; now_2024_03_10]) "alice".

Lemma get_streak_monotone_witness :
  (forall pk name, completed cm_two_days pk name = true -> completed cm_example pk name = true) /\
  get_streak "h" "daily" cm_two_days now_2024_03_10 = Some 2%nat /\
  get_streak "h" "daily" cm_example now_2024_03_10 = Some 3%nat /\
  (2 <= 3)%nat.
Proof.
  assert (Hsub : forall pk name, completed cm_two_days pk name = true ->
                                 completed cm_example pk name = true).
  { unfold cm_two_days, cm_example. intros pk name H.
    apply completed_load_In in H. apply completed_load_In.
    vm_compute in H |- *. destruct H as [H|[H|[]]]; [right; left|right; right; left]; exact H. }
  assert (H2 : get_streak "h" "daily" cm_two_days now_2024_03_10 = Some 2%nat)
    by (vm_compute; reflexivity).
  assert (H3 : get_streak "h" "daily" cm_example now_2024_03_10 = Some 3%nat)
    by (vm_compute; reflexivity).
  split; [exact Hsub|]. split; [exact H2|]. split; [exact H3|].
  exact (get_streak_monotone "h" "daily" cm_two_days cm_example now_2024_03_10 2 3 Hsub H2 H3).
Defined.

(** How many times [load_completions] lists a habit under a key: the
    number of matching rows. *)
Lemma count_names_at_load (s : store) (username period_key habit_name : string) :
  List.length (List.filter (String.eqb habit_name)
                 (names_at (load_completions s username) period_key)) =
  count_completions s username habit_name period_key.
Proof.
  rewrite names_at_load. unfold completions_of, count_completions.
  induction (completions s) as [|r l IH]; [reflexivity|]. cbn.
  destruct (String.eqb (c_username r) username); cbn;
    [destruct (String.eqb (c_period_key r) period_key); cbn|];
    rewrite ?andb_true_r, ?andb_false_r, ?(String.eqb_sym habit_name);
    try (destruct (String.eqb (c_habit_name r) habit_name); cbn); rewrite ?IH; reflexivity.
Qed.

Lemma completed_load_toggle_on (s : store) (username period_key habit_name pk h : string) :
  completed (load_completions (toggle_completion s username period_key habit_name true) username)
    pk h =
  completed (load_completions s username) pk h ||
  (String.eqb period_key pk && String.eqb habit_name h).
Proof.
  apply Bool.eq_iff_eq_true. rewrite orb_true_iff, andb_true_iff, !completed_load_In.
  unfold toggle_completion, insert_row. cbn [completions set_completions].
  rewrite in_app_iff, !String.eqb_eq. cbn. split.
  - intros [Hin|[Heq|[]]]; [left; exact Hin|right].
    injection Heq as E1 E2. split; assumption.
  - intros [Hin|[-> ->]]; [left; exact Hin|right; left; reflexivity].
Qed.

Lemma completed_load_toggle_off (s : store) (username period_key habit_name pk h : string) :
  completed (load_completions (toggle_completion s username period_key habit_name false) username)
    pk h =
  completed (load_completions s username) pk h &&
  negb (String.eqb period_key pk && String.eqb habit_name h).
Proof.
  apply Bool.eq_iff_eq_true. rewrite andb_true_iff, negb_true_iff, !completed_load_In.
  unfold toggle_completion, delete_where. cbn [completions set_completions].
  rewrite List.filter_In. cbn [c_period_key c_habit_name c_username].
  rewrite negb_true_iff, String.eqb_refl, andb_true_r, (String.eqb_sym pk), (String.eqb_sym h).
  reflexivity.
Qed.

Lemma existsb_count (x : string) (l : list string) :
  existsb (String.eqb x) l = negb (Nat.eqb (List.length (List.filter (String.eqb x) l)) 0).
Proof.
  induction l as [|y l IH]; [reflexivity|]. cbn.
  destruct (String.eqb x y); cbn; [reflexivity|exact IH].
Qed.

Lemma remove_first_count (x : string) (l : list string) :
  List.length (List.filter (String.eqb x) (remove_first x l)) =
  Nat.pred (List.length (List.filter (String.eqb x) l)).
Proof.
  induction l as [|y l IH]; [reflexivity|]. cbn.
  rewrite (String.eqb_sym y x). destruct (String.eqb x y) eqn:E; cbn.
  - reflexivity.
  - rewrite E. exact IH.
Qed.

Lemma remove_first_other (x h : string) (l : list string) :
  h <> x -> existsb (String.eqb h) (remove_first x l) = existsb (String.eqb h) l.
Proof.
  intros Hne. induction l as [|y l IH]; [reflexivity|]. cbn.
  destruct (String.eqb_spec y x) as [->|_]; cbn.
  - apply String.eqb_neq in Hne. rewrite Hne. reflexivity.
  - rewrite IH. reflexivity.
Qed.

(** X5: [load_completions] marks [habit_name] done under [period_key]
    exactly when the completions table holds the row
    [(period_key, habit_name, username)]. *)
Theorem load_completions_roundtrip (s : store) (username period_key habit_name : string) :
  completed (load_completions s username) period_key habit_name = true <->
  In (mk_completion_row period_key habit_name username) (completions s).
Proof. apply completed_load_In. Qed.

Lemma names_at_load_toggle_on (s : store) (username period_key habit_name pk : string) :
  names_at (load_completions (toggle_completion s username period_key habit_name true) username) pk =
  names_at (load_completions s username) pk ++
  (if String.eqb period_key pk then [habit_name] else []).
Proof.
  rewrite !names_at_load. unfold completions_of, toggle_completion, insert_row.
  cbn [completions set_completions]. rewrite !List.filter_app, map_app. cbn.
  rewrite String.eqb_refl. cbn. destruct (String.eqb period_key pk); reflexivity.
Qed.

Lemma filter_filter_and {A} (f g : A -> bool) (l : list A) :
  List.filter f (List.filter g l) = List.filter (fun x => g x && f x) l.
Proof.
  induction l as [|x l IH]; [reflexivity|]. cbn.
  destruct (g x); cbn; [destruct (f x)|]; cbn; rewrite ?IH; reflexivity.
Qed.

Lemma filter_map_comm {A B} (p : B -> bool) (h : A -> B) (l : list A) :
  List.filter p (List.map h l) = List.map h (List.filter (fun x => p (h x)) l).
Proof.
  induction l as [|x l IH]; [reflexivity|]. cbn.
  destruct (p (h x)); cbn; rewrite IH; reflexivity.
Qed.

Lemma filter_ext_eq {A} (f g : A -> bool) (l : list A) :
  (forall x, f x = g x) -> List.filter f l = List.filter g l.
Proof.
  intros H. induction l as [|x l IH]; [reflexivity|]. cbn. rewrite H, IH. reflexivity.
Qed.

Lemma names_at_load_toggle_off (s : store) (username period_key habit_name pk : string) :
  names_at (load_completions (toggle_completion s username period_key habit_name false) username) pk =
  if String.eqb period_key pk
  then List.filter (fun n => negb (String.eqb n habit_name)) (names_at (load_completions s username) pk)
  else names_at (load_completions s username) pk.
Proof.
  rewrite !names_at_load. unfold completions_of, toggle_completion, delete_where.
  cbn [completions set_completions]. rewrite !filter_filter_and.
  destruct (String.eqb_spec period_key pk) as [<-|Hne].
  - rewrite filter_map_comm, filter_filter_and. f_equal. apply filter_ext_eq.
    intros [k n u]. cbn.
    destruct (String.eqb_spec k period_key), (String.eqb_spec n habit_name),
      (String.eqb_spec u username); cbn; congruence.
  - f_equal. apply filter_ext_eq. intros [k n u]. cbn.
    destruct (String.eqb_spec k period_key), (String.eqb_spec k pk),
      (String.eqb_spec n habit_name), (String.eqb_spec u username); cbn; congruence.
Qed.

Lemma filter_neq_count0 (x : string) (l : list string) :
  List.length (List.filter (String.eqb x) l) = 0%nat ->
  List.filter (fun n => negb (String.eqb n x)) l = l.
Proof.
  induction l as [|y l IH]; intros H; [reflexivity|]. cbn in *.
  rewrite (String.eqb_sym y x). destruct (String.eqb x y); cbn in *; [discriminate|].
  f_equal. exact (IH H).
Qed.

(** On a list holding [x] at most once, [list.remove(x)] drops every [x]. *)
Lemma remove_first_filter (x : string) (l : list string) :
  (List.length (List.filter (String.eqb x) l) <= 1)%nat ->
  remove_first x l = List.filter (fun n => negb (String.eqb n x)) l.
Proof.
  induction l as [|y l IH]; intros H; [reflexivity|]. cbn in *.
  rewrite (String.eqb_sym y x). destruct (String.eqb x y); cbn in *.
  - symmetry. apply filter_neq_count0. lia.
  - f_equal. exact (IH H).
Qed.

Lemma length_filter_filter_le (f g : string -> bool) (l : list string) :
  (List.length (List.filter f (List.filter g l)) <= List.length (List.filter f l))%nat.
Proof.
  induction l as [|x l IH]; cbn; [lia|].
  destruct (g x); cbn; destruct (f x); cbn; lia.
Qed.

(** One card: with no duplicate rows in the table and a dict listing, key
    by key, what the table lists, the click keeps both facts. *)
Lemma some_pair_eq {A B} (a a' : A) (b b' : B) :
  Some (a, b) = Some (a', b') -> a = a' /\ b = b'.
Proof. intros H. injection H as -> ->. split; reflexivity. Qed.

Lemma count_toggle_off_zero (s : store) (username period_key habit_name : string) :
  count_completions (toggle_completion s username period_key habit_name false) username
    habit_name period_key = 0%nat.
Proof.
  rewrite <- count_names_at_load, names_at_load_toggle_off, String.eqb_refl.
  generalize (names_at (load_completions s username) period_key) as l.
  induction l as [|y l IH]; [reflexivity|]. cbn.
  destruct (String.eqb y habit_name) eqn:E; cbn; [exact IH|].
  rewrite String.eqb_sym, E. exact IH.
Qed.

(** X6: when the card's [get_streak] call does not raise and the table
    holds two or more rows for the card's habit and current period,
    unticking the box deletes them all from the table, but the local dict
    loses only one occurrence of the name and still shows the habit
    done. *)
Theorem render_habit_card_uncheck_duplicates (s : store) (username : string) (habit : habit_row)
    (now : date) (s' : store) (cm' : completions_map) :
  (2 <= count_completions s username (h_name habit) (get_period_key (h_habit_type habit) now))%nat ->
  render_habit_card_toggle s (load_completions s username) username habit now false = Some (s', cm') ->
  completed cm' (get_period_key (h_habit_type habit) now) (h_name habit) = true /\
  List.length (List.filter (String.eqb (h_name habit))
                 (names_at cm' (get_period_key (h_habit_type habit) now))) =
    Nat.pred (count_completions s username (h_name habit) (get_period_key (h_habit_type habit) now)) /\
  count_completions s' username (h_name habit) (get_period_key (h_habit_type habit) now) = 0%nat /\
  completed (load_completions s' username) (get_period_key (h_habit_type habit) now)
    (h_name habit) = false.
Proof.
  intros Hcount Hr. unfold render_habit_card_toggle in Hr. cbv zeta in Hr.
  destruct (get_streak (h_name habit) (h_habit_type habit) (load_completions s username) now);
    [|discriminate].
  assert (Hc : existsb (String.eqb (h_name habit))
                 (names_at (load_completions s username) (get_period_key (h_habit_type habit) now))
               = true).
  { rewrite existsb_count, count_names_at_load.
    destruct (Nat.eqb_spec (count_completions s username (h_name habit)
                              (get_period_key (h_habit_type habit) now)) 0); [lia|reflexivity]. }
  rewrite Hc in Hr. cbn [Bool.eqb] in Hr. apply some_pair_eq in Hr as [<- <-].
  split; [|split; [|split]].
  - rewrite completed_names_at, names_at_insert, String.eqb_refl.
    rewrite existsb_count, remove_first_count, count_names_at_load.
    destruct (Nat.eqb_spec (Nat.pred (count_completions s username (h_name habit)
                              (get_period_key (h_habit_type habit) now))) 0); [lia|reflexivity].
  - rewrite names_at_insert, String.eqb_refl, remove_first_count, count_names_at_load.
    reflexivity.
  - apply count_toggle_off_zero.
  - rewrite completed_load_toggle_off, !String.eqb_refl, andb_false_r. reflexivity.
Qed.

Lemma render_habit_card_uncheck_duplicates_witness :
  let s := store_with "daily" "alice" "h" [now_2024_03_10; now_2024_03_10] in
  let habit := mk_habit_row "h" "alice" "daily" 0 in
  (2 <= count_completions s "alice" "h" "2024-03-10")%nat /\
  exists s' cm',
    render_habit_card_toggle s (load_completions s "alice") "alice" habit now_2024_03_10 false =
      Some (s', cm') /\
    completed cm' "2024-03-10" "h" = true /\
    List.length (List.filter (String.eqb "h") (names_at cm' "2024-03-10")) = 1%nat /\
    count_completions s' "alice" "h" "2024-03-10" = 0%nat /\
    completed (load_completions s' "alice") "2024-03-10" "h" = false.
Proof.
  intros s habit. subst s habit.
  assert (Hk : (2 <= count_completions (store_with "daily" "alice" "h" [now_2024_03_10; now_2024_03_10])
                 "alice" "h" "2024-03-10")%nat) by (vm_compute; lia).
  split; [exact Hk|].
  destruct (render_habit_card_toggle (store_with "daily" "alice" "h" [now_2024_03_10; now_2024_03_10])
              (load_completions (store_with "daily" "alice" "h" [now_2024_03_10; now_2024_03_10]) "alice")
              "alice" (mk_habit_row "h" "alice" "daily" 0) now_2024_03_10 false)
    as [[s' cm']|] eqn:Er; [|vm_compute in Er; discriminate].
  exists s', cm'. split; [reflexivity|].
  destruct (render_habit_card_uncheck_duplicates
              (store_with "daily" "alice" "h" [now_2024_03_10; now_2024_03_10]) "alice"
              (mk_habit_row "h" "alice" "daily" 0) now_2024_03_10 s' cm' Hk Er)
    as [H1 [H2 [H3 H4]]].
  split; [exact H1|]. split; [refine (eq_trans H2 _); vm_compute; reflexivity|]. split; [exact H3|exact H4].
Defined.

Lemma render_habit_card_step (s : store) (cm : completions_map) (username : string)
    (habit : habit_row) (now : date) (checkbox_value : bool) (s' : store) (cm' : completions_map) :
  (forall pk h, count_completions s username h pk <= 1)%nat ->
  (forall pk, names_at cm pk = names_at (load_completions s username) pk) ->
  render_habit_card_toggle s cm username habit now checkbox_value = Some (s', cm') ->
  (forall pk h, count_completions s' username h pk <= 1)%nat /\
  (forall pk, names_at cm' pk = names_at (load_completions s' username) pk).
Proof.
  intros Hc Hn Hr. unfold render_habit_card_toggle in Hr. cbv zeta in Hr.
  destruct (get_streak (h_name habit) (h_habit_type habit) cm now); [|discriminate].
  destruct (Bool.eqb checkbox_value _) eqn:Eb;
    [apply some_pair_eq in Hr as [<- <-]; split; assumption|].
  apply Bool.eqb_false_iff in Eb.
  destruct checkbox_value; apply some_pair_eq in Hr as [<- <-]; split.
  - intros pk h.
    rewrite <- count_names_at_load, names_at_load_toggle_on, List.filter_app, length_app,
      count_names_at_load.
    destruct (String.eqb_spec (get_period_key (h_habit_type habit) now) pk) as [<-|Hne];
      cbn [List.filter List.length]; [|specialize (Hc pk h); lia].
    destruct (String.eqb_spec h (h_name habit)) as [->|Hne]; cbn [List.length];
      [|specialize (Hc (get_period_key (h_habit_type habit) now) h); lia].
    rewrite <- count_names_at_load, <- Hn.
    destruct (existsb (String.eqb (h_name habit))
                (names_at cm (get_period_key (h_habit_type habit) now))) eqn:E; [congruence|].
    rewrite existsb_count in E.
    destruct (Nat.eqb_spec (List.length (List.filter (String.eqb (h_name habit))
                (names_at cm (get_period_key (h_habit_type habit) now)))) 0); [lia|discriminate].
  - intros pk. rewrite names_at_insert, names_at_load_toggle_on.
    destruct (String.eqb_spec (get_period_key (h_habit_type habit) now) pk) as [<-|Hne];
      rewrite Hn; [reflexivity|symmetry; apply app_nil_r].
  - intros pk h. rewrite <- count_names_at_load, names_at_load_toggle_off.
    destruct (String.eqb _ pk).
    + eapply Nat.le_trans; [apply length_filter_filter_le|]. rewrite count_names_at_load. apply Hc.
    + rewrite count_names_at_load. apply Hc.
  - intros pk. rewrite names_at_insert, names_at_load_toggle_off.
    destruct (String.eqb_spec (get_period_key (h_habit_type habit) now) pk) as [<-|Hne];
      rewrite Hn; [|reflexivity].
    apply remove_first_filter. rewrite count_names_at_load. apply Hc.
Qed.

Lemma render_cards_invariant (s : store) (cm : completions_map) (username : string) (now : date)
    (clicks : list (habit_row * bool)) (s' : store) (cm' : completions_map) :
  (forall pk h, count_completions s username h pk <= 1)%nat ->
  (forall pk, names_at cm pk = names_at (load_completions s username) pk) ->
  render_cards s cm username now clicks = Some (s', cm') ->
  (forall pk h, count_completions s' username h pk <= 1)%nat /\
  (forall pk, names_at cm' pk = names_at (load_completions s' username) pk).
Proof.
  revert s cm.
  induction clicks as [|[habit v] rest IH]; intros s cm Hc Hn Hr; cbn [render_cards] in Hr.
  - apply some_pair_eq in Hr as [<- <-]. split; assumption.
  - destruct (render_habit_card_toggle s cm username habit now v) as [[s1 cm1]|] eqn:E1;
      [|discriminate].
    destruct (render_habit_card_step s cm username habit now v s1 cm1 Hc Hn E1) as [Hc1 Hn1].
    exact (IH s1 cm1 Hc1 Hn1 Hr).
Qed.

(** X7: when the completions table holds no duplicate rows for the user,
    the cards of a page run that completes, drawn on the dict
    [load_completions] returned, never create one, and after any sequence
    of checkbox clicks the dict lists under every key the same names, up
    to order, as reloading the table would ([load_completions]' query sets
    no order). *)
Theorem render_cards_sync (s : store) (username : string) (now : date)
    (clicks : list (habit_row * bool)) (s' : store) (cm' : completions_map) :
  (forall pk h, count_completions s username h pk <= 1)%nat ->
  render_cards s (load_completions s username) username now clicks = Some (s', cm') ->
  (forall pk h, count_completions s' username h pk <= 1)%nat /\
  (forall pk, Permutation (names_at cm' pk) (names_at (load_completions s' username) pk)).
Proof.
  intros Hc Hr.
  destruct (render_cards_invariant s (load_completions s username) username now clicks s' cm'
              Hc (fun _ => eq_refl) Hr) as [H1 H2].
  split; [exact H1|]. intros pk. rewrite H2. apply Permutation_refl.
Qed.

Lemma render_cards_sync_witness :
  let s := store_with "daily" "alice" "h" [now_2024_03_10] in
  let habit := mk_habit_row "h" "alice" "daily" 0 in
  (forall pk h, count_completions s "alice" h pk <= 1)%nat /\
  exists s' cm',
    render_cards s (load_completions s "alice") "alice" now_2024_03_10
      [(habit, false); (habit, true); (habit, true)] = Some (s', cm') /\
    Permutation (names_at cm' "2024-03-10") (names_at (load_completions s' "alice") "2024-03-10").
Proof.
  intros s habit. subst s habit.
  assert (Hc : forall pk h, (count_completions (store_with "daily" "alice" "h" [now_2024_03_10])
                               "alice" h pk <= 1)%nat).
  { intros pk h. unfold count_completions.
    eapply Nat.le_trans; [apply List.filter_length_le|]. vm_compute. lia. }
  split; [exact Hc|].
  destruct (render_cards (store_with "daily" "alice" "h" [now_2024_03_10])
              (load_completions (store_with "daily" "alice" "h" [now_2024_03_10]) "alice") "alice"
              now_2024_03_10
              [(mk_habit_row "h" "alice" "daily" 0, false); (mk_habit_row "h" "alice" "daily" 0, true);
               (mk_habit_row "h" "alice" "daily" 0, true)])
    as [[s' cm']|] eqn:Er; [|vm_compute in Er; discriminate].
  exists s', cm'. split; [reflexivity|].
  exact (proj2 (render_cards_sync _ "alice" now_2024_03_10 _ s' cm' Hc Er) "2024-03-10").
Defined.

(** ** Adding and removing habits *)

Lemma delete_where_idem {A} (sel : A -> bool) (l : list A) :
  delete_where sel (delete_where sel l) = delete_where sel l.
Proof.
  unfold delete_where. induction l as [|r l IH]; [reflexivity|]. cbn.
  destruct (sel r) eqn:E; cbn; [exact IH|]. rewrite E. cbn. f_equal. exact IH.
Qed.

Lemma habits_of_save (s : store) (username habit_name habit_type : string) (created_at : Z) :
  habits_of (save_habit s username habit_name habit_type created_at) username =
  habits_of s username ++ [mk_habit_row habit_name username habit_type created_at].
Proof.
  unfold habits_of, save_habit, insert_row. cbn [habits set_habits].
  rewrite List.filter_app. cbn. rewrite String.eqb_refl. reflexivity.
Qed.

Lemma in_map_filter {A} (f : A -> string) (p : A -> bool) (l : list A) (x : string) :
  In x (List.map f (List.filter p l)) -> In x (List.map f l).
Proof.
  intros Hx. apply in_map_iff in Hx as [r [<- Hr]]. apply List.filter_In in Hr as [Hr _].
  apply in_map. exact Hr.
Qed.

Lemma nodup_map_filter {A} (f : A -> string) (p : A -> bool) (l : list A) :
  NoDup (List.map f l) -> NoDup (List.map f (List.filter p l)).
Proof.
  induction l as [|r l IH]; intros Hnd; cbn in *; [exact Hnd|].
  apply NoDup_cons in Hnd as [Hr Hnd].
  destruct (p r); cbn; [|exact (IH Hnd)].
  apply NoDup_cons. split; [|exact (IH Hnd)].
  intros Hin. apply Hr. apply list_elem_of_In. apply list_elem_of_In in Hin.
  exact (in_map_filter f p l (f r) Hin).
Qed.

Lemma NoDup_snoc (x : string) (l : list string) : NoDup l -> ~ In x l -> NoDup (l ++ [x]).
Proof.
  intros Hnd Hx. apply NoDup_app. split; [exact Hnd|]. split; [|apply NoDup_singleton].
  intros y Hy Hy'. apply list_elem_of_singleton in Hy'. subst y.
  apply Hx. apply list_elem_of_In. exact Hy.
Qed.

Lemma habits_of_remove (s : store) (username other habit_name : string) :
  habits_of (remove_habit s username habit_name) other =
  List.filter (fun r => negb (String.eqb (h_name r) habit_name && String.eqb (h_username r) username))
    (habits_of s other).
Proof.
  unfold habits_of, remove_habit, delete_where. cbn [habits set_habits set_completions].
  induction (habits s) as [|r l IH]; [reflexivity|]. cbn.
  destruct (negb (String.eqb (h_name r) habit_name && String.eqb (h_username r) username)) eqn:E;
    cbn; destruct (String.eqb (h_username r) other); cbn; rewrite ?E, IH; reflexivity.
Qed.

(** X8: [remove_habit] is idempotent: a second removal of the same habit
    deletes nothing more. *)
Theorem remove_habit_idempotent (s : store) (username habit_name : string) :
  remove_habit (remove_habit s username habit_name) username habit_name =
  remove_habit s username habit_name.
Proof.
  unfold remove_habit. cbn [habits completions set_habits set_completions].
  rewrite !delete_where_idem. reflexivity.
Qed.

(** X9: once a habit is removed, the "Add" handler accepts its name again
    (when not empty): it saves the habit and reports it added. *)
Theorem remove_then_add (s : store) (username habit_name habit_type : string) (created_at : Z) :
  habit_name <> "" ->
  add_habit_click (remove_habit s username habit_name) username habit_name habit_type created_at =
  (save_habit (remove_habit s username habit_name) username habit_name habit_type created_at,
   String.append "Added '" (String.append habit_name "'!")).
Proof.
  intros Hne. unfold add_habit_click. cbv zeta.
  assert (Hn : existsb (String.eqb habit_name)
                 (List.map h_name (habits_of (remove_habit s username habit_name) username)) = false).
  { rewrite habits_of_remove. unfold habits_of.
    induction (habits s) as [|r l IH]; [reflexivity|]. cbn.
    destruct (String.eqb (h_username r) username) eqn:Eu; cbn; [|exact IH].
    destruct (String.eqb (h_name r) habit_name) eqn:Eh; cbn; rewrite ?Eu; cbn; [exact IH|].
    rewrite (String.eqb_sym habit_name), Eh. exact IH. }
  rewrite Hn. apply String.eqb_neq in Hne. rewrite Hne. reflexivity.
Qed.

Lemma remove_then_add_witness :
  "h" <> "" /\
  add_habit_click (remove_habit two_users_store "alice" "h") "alice" "h" "weekly" 1 =
  (save_habit (remove_habit two_users_store "alice" "h") "alice" "h" "weekly" 1, "Added 'h'!").
Proof.
  assert (Hne : "h" <> "") by discriminate.
  split; [exact Hne|]. exact (remove_then_add two_users_store "alice" "h" "weekly" 1 Hne).
Defined.

(** X10: the "Add" handler keeps the names of a user's habits distinct and
    non-empty. *)
Theorem add_habit_click_names_ok (s : store) (username new_habit habit_type : string)
    (created_at : Z) :
  NoDup (List.map h_name (habits_of s username)) ->
  ~ In "" (List.map h_name (habits_of s username)) ->
  let s' := fst (add_habit_click s username new_habit habit_type created_at) in
  NoDup (List.map h_name (habits_of s' username)) /\
  ~ In "" (List.map h_name (habits_of s' username)).
Proof.
  intros Hnd Hne. unfold add_habit_click. cbv zeta.
  destruct (String.eqb_spec new_habit "") as [->|Hn]; cbn [negb andb].
  - destruct (existsb _ _); cbn [fst]; split; assumption.
  - destruct (existsb (String.eqb new_habit) (List.map h_name (habits_of s username))) eqn:Ex;
      cbn [negb andb fst]; [split; assumption|].
    rewrite habits_of_save, map_app. cbn [List.map h_name]. split.
    + apply NoDup_snoc; [exact Hnd|]. intros Hin.
      assert (Ht : existsb (String.eqb new_habit) (List.map h_name (habits_of s username)) = true)
        by (apply existsb_exists; exists new_habit; split; [exact Hin|apply String.eqb_refl]).
      congruence.
    + rewrite in_app_iff. intros [H|[H|[]]]; [exact (Hne H)|congruence].
Qed.

Lemma add_habit_click_names_ok_witness :
  NoDup (List.map h_name (habits_of two_users_store "alice")) /\
  ~ In "" (List.map h_name (habits_of two_users_store "alice")) /\
  NoDup (List.map h_name
           (habits_of (fst (add_habit_click two_users_store "alice" "run" "daily" 1)) "alice")).
Proof.
  assert (H1 : NoDup (List.map h_name (habits_of two_users_store "alice")))
    by (vm_compute; apply NoDup_singleton).
  assert (H2 : ~ In "" (List.map h_name (habits_of two_users_store "alice")))
    by (vm_compute; intros [H|[]]; discriminate).
  split; [exact H1|]. split; [exact H2|].
  exact (proj1 (add_habit_click_names_ok two_users_store "alice" "run" "daily" 1 H1 H2)).
Defined.

(** X11: [remove_habit] keeps the names of every user's habits distinct and
    non-empty. *)
Theorem remove_habit_names_ok (s : store) (username other habit_name : string) :
  NoDup (List.map h_name (habits_of s other)) ->
  ~ In "" (List.map h_name (habits_of s other)) ->
  NoDup (List.map h_name (habits_of (remove_habit s username habit_name) other)) /\
  ~ In "" (List.map h_name (habits_of (remove_habit s username habit_name) other)).
Proof.
  intros Hnd Hne. rewrite habits_of_remove. split.
  - apply nodup_map_filter. exact Hnd.
  - intros Hin. apply Hne. exact (in_map_filter _ _ _ _ Hin).
Qed.

Definition three_habits_store : store :=
  mk_store [] []
    [mk_habit_row "h" "alice" "daily" 0; mk_habit_row "run" "alice" "weekly" 0;
     mk_habit_row "read" "alice" "monthly" 0; mk_habit_row "h" "bob" "daily" 0] [].

Lemma remove_habit_names_ok_witness :
  NoDup (List.map h_name (habits_of three_habits_store "alice")) /\
  ~ In "" (List.map h_name (habits_of three_habits_store "alice")) /\
  List.map h_name (habits_of (remove_habit three_habits_store "alice" "run") "alice") = ["h"; "read"] /\
  NoDup (List.map h_name (habits_of (remove_habit three_habits_store "alice" "run") "alice")).
Proof.
  assert (H1 : NoDup (List.map h_name (habits_of three_habits_store "alice")))
    by (vm_compute; apply (bool_decide_unpack _); vm_compute; exact I).
  assert (H2 : ~ In "" (List.map h_name (habits_of three_habits_store "alice")))
    by (vm_compute; intros [H|[H|[H|[]]]]; discriminate).
  split; [exact H1|]. split; [exact H2|]. split; [vm_compute; reflexivity|].
  exact (proj1 (remove_habit_names_ok three_habits_store "alice" "alice" "run" H1 H2)).
Defined.

(** ** Section progress *)

(** X12: [render_habit_section] draws nothing exactly when no habit has the
    section's cadence; otherwise its progress [completed_count/total_count]
    has [0 < total_count] and [completed_count <= total_count], so the
    fraction given to [st.progress] lies in [0, 1]. *)
Theorem section_progress_bounds (habits : list habit_row) (cm : completions_map)
    (habit_type : string) (now : date) :
  (section_progress habits cm habit_type now = None <->
   forall h, In h habits -> h_habit_type h <> habit_type) /\
  (forall completed_count total_count,
     section_progress habits cm habit_type now = Some (completed_count, total_count) ->
     (completed_count <= total_count)%nat /\ (0 < total_count)%nat).
Proof.
  unfold section_progress. cbv zeta.
  destruct (List.filter (fun h => String.eqb (h_habit_type h) habit_type) habits) as [|h0 l] eqn:Ef.
  - split; [split; [intros _ h Hin Ht|intros _; reflexivity]|discriminate].
    assert (Hf : In h (List.filter (fun h => String.eqb (h_habit_type h) habit_type) habits))
      by (apply List.filter_In; split; [exact Hin|apply String.eqb_eq; exact Ht]).
    rewrite Ef in Hf. destruct Hf.
  - split; [split; [discriminate|intros Hno]|].
    + exfalso.
      assert (Hf : In h0 (List.filter (fun h => String.eqb (h_habit_type h) habit_type) habits))
        by (rewrite Ef; left; reflexivity).
      apply List.filter_In in Hf as [Hin Ht]. apply String.eqb_eq in Ht. exact (Hno h0 Hin Ht).
    + intros c t H. injection H as <- <-. split; [|cbn; lia].
      pose proof (List.filter_length_le (fun h : habit_row =>
        existsb (String.eqb (h_name h)) (names_at cm (get_period_key habit_type now))) l).
      destruct (existsb _ _); cbn; lia.
Qed.

(** ** Signup and login *)

Lemma verify_after_mark (s : store) (code username : string) :
  verify_access_code (mark_access_code_used s code username) code = false.
Proof.
  unfold verify_access_code, mark_access_code_used. cbn [access_codes set_access_codes].
  induction (access_codes s) as [|r l IH]; [reflexivity|]. cbn.
  destruct (String.eqb (ac_code r) code) eqn:E; cbn; rewrite ?E; cbn; exact IH.
Qed.

Lemma signup_unverified (hash_password : string -> string) (insert_ok : bool) (s : store)
    (username password password_confirm code : string) :
  verify_access_code s code = false ->
  fst (signup hash_password insert_ok s username password password_confirm code) = [s].
Proof.
  intros Hv.
  destruct (signup_writes_last hash_password insert_ok s username password password_confirm code)
    as [H|[_ [_ H]]]; [exact H|congruence].
Qed.

Lemma user_exists_false (s : store) (username : string) :
  user_exists s username = false -> ~ In username (List.map u_username (users s)).
Proof.
  unfold user_exists. intros H Hin. apply in_map_iff in Hin as [r [Hr Hin]].
  assert (Ht : existsb (fun r => String.eqb (u_username r) username) (users s) = true)
    by (apply existsb_exists; exists r; split; [exact Hin|apply String.eqb_eq; exact Hr]).
  congruence.
Qed.

(** The only way to "Account created!": all checks passed and the user
    row was written, then the code marked. *)
Lemma signup_success (hash_password : string -> string) (insert_ok : bool) (s : store)
    (username password password_confirm code : string) :
  snd (signup hash_password insert_ok s username password password_confirm code) =
    "Account created! Please login." ->
  username <> "" /\ password <> "" /\ user_exists s username = false /\
  fst (signup hash_password insert_ok s username password password_confirm code) =
    let s1 := set_users s (insert_row (mk_user_row username (hash_password password)) (users s)) in
    [s; s1; mark_access_code_used s1 code username].
Proof.
  unfold signup.
  destruct (existsb _ _) eqn:E; [intros H; discriminate H|].
  destruct (Nat.ltb _ _); [intros H; discriminate H|].
  destruct (negb _); [intros H; discriminate H|].
  destruct (user_exists s username) eqn:Eu; [intros H; discriminate H|].
  destruct (negb (verify_access_code s code)); [intros H; discriminate H|].
  unfold signup_create, create_user. destruct insert_ok; [|intros H; discriminate H].
  intros _. cbn [existsb] in E.
  apply orb_false_iff in E as [E1 E]. apply orb_false_iff in E as [E2 _].
  apply String.eqb_neq in E1, E2.
  split; [intros ->; apply E1; reflexivity|]. split; [intros ->; apply E2; reflexivity|].
  split; reflexivity.
Qed.

(** X13: after "Account created!", logging in with the same username and
    password succeeds on the store as it is once the user row is written,
    whether or not the code was marked yet. *)
Theorem signup_then_login (hash_password : string -> string) (insert_ok : bool) (s s' : store)
    (username password password_confirm code : string) :
  snd (signup hash_password insert_ok s username password password_confirm code) =
    "Account created! Please login." ->
  In s' (tl (fst (signup hash_password insert_ok s username password password_confirm code))) ->
  login hash_password s' username password = Some username.
Proof.
  intros Hm Hin.
  destruct (signup_success hash_password insert_ok s username password password_confirm code Hm)
    as [Hu [Hp [_ Hf]]].
  rewrite Hf in Hin. cbn [tl In] in Hin.
  unfold login. apply String.eqb_neq in Hu, Hp. rewrite Hu, Hp. cbn [negb andb].
  assert (Hv : verify_user hash_password
                 (set_users s (insert_row (mk_user_row username (hash_password password)) (users s)))
                 username password = true).
  { unfold verify_user, insert_row. cbn [users set_users]. rewrite existsb_app. cbn.
    rewrite !String.eqb_refl. cbn. apply orb_true_r. }
  destruct Hin as [<-|[<-|[]]]; rewrite ?Hv; [reflexivity|].
  unfold verify_user in *. cbn [users mark_access_code_used set_access_codes] in *. rewrite Hv.
  reflexivity.
Qed.

Lemma signup_then_login_witness :
  let r := signup (fun p => p) true signup_store "alice" "secret1" "secret1" "XK42" in
  snd r = "Account created! Please login." /\
  In (List.last (fst r) signup_store) (tl (fst r)) /\
  login (fun p => p) (List.last (fst r) signup_store) "alice" "secret1" = Some "alice".
Proof.
  intros r.
  assert (Hm : snd r = "Account created! Please login.") by (vm_compute; reflexivity).
  assert (Hin : In (List.last (fst r) signup_store) (tl (fst r))) by (vm_compute; right; left; reflexivity).
  split; [exact Hm|]. split; [exact Hin|].
  exact (signup_then_login (fun p => p) true signup_store (List.last (fst r) signup_store)
           "alice" "secret1" "secret1" "XK42" Hm Hin).
Defined.

(** X14: an access code serves one account: once a signup with it reports
    "Account created!", any later signup with that code, whatever its
    other fields, writes nothing. *)
Theorem signup_code_single_use (hash_password : string -> string) (insert_ok insert_ok' : bool)
    (s : store) (username password password_confirm code username' password' password_confirm' : string) :
  snd (signup hash_password insert_ok s username password password_confirm code) =
    "Account created! Please login." ->
  let s2 := List.last (fst (signup hash_password insert_ok s username password password_confirm code)) s in
  fst (signup hash_password insert_ok' s2 username' password' password_confirm' code) = [s2].
Proof.
  intros Hm.
  destruct (signup_success hash_password insert_ok s username password password_confirm code Hm)
    as [_ [_ [_ Hf]]].
  cbv zeta. rewrite Hf. cbn [List.last]. apply signup_unverified. apply verify_after_mark.
Qed.

Lemma signup_code_single_use_witness :
  let r := signup (fun p => p) true signup_store "alice" "secret1" "secret1" "XK42" in
  snd r = "Account created! Please login." /\
  fst (signup (fun p => p) true (List.last (fst r) signup_store) "bob" "hunter22" "hunter22" "XK42") =
    [List.last (fst r) signup_store].
Proof.
  intros r.
  assert (Hm : snd r = "Account created! Please login.") by (vm_compute; reflexivity).
  split; [exact Hm|].
  exact (signup_code_single_use (fun p => p) true true signup_store "alice" "secret1" "secret1"
           "XK42" "bob" "hunter22" "hunter22" Hm).
Defined.

(** X15: signup keeps usernames unique: if the users table has no two rows
    with one username, neither has any state the handler leaves it in. *)
Theorem signup_usernames_unique (hash_password : string -> string) (insert_ok : bool)
    (s s' : store) (username password password_confirm code : string) :
  NoDup (List.map u_username (users s)) ->
  In s' (fst (signup hash_password insert_ok s username password password_confirm code)) ->
  NoDup (List.map u_username (users s')).
Proof.
  intros Hnd Hin.
  destruct (signup_writes_last hash_password insert_ok s username password password_confirm code)
    as [H|[H [Hu _]]]; rewrite H in Hin.
  - destruct Hin as [<-|[]]. exact Hnd.
  - unfold signup_create, create_user in Hin.
    assert (Hnew : NoDup (List.map u_username
                     (users (set_users s (insert_row (mk_user_row username (hash_password password))
                                            (users s)))))).
    { unfold insert_row. cbn [users set_users]. rewrite map_app. cbn [List.map u_username].
      apply NoDup_snoc; [exact Hnd|]. apply user_exists_false. exact Hu. }
    destruct insert_ok; cbn [fst In] in Hin.
    + destruct Hin as [<-|[<-|[<-|[]]]]; [exact Hnd|exact Hnew|exact Hnew].
    + destruct Hin as [<-|[<-|[]]]; exact Hnd.
Qed.

Definition signup_store_bob : store :=
  mk_store [mk_user_row "bob" "pw"] [mk_access_code_row "XK42" false ""] [] [].

Lemma signup_usernames_unique_witness :
  let r1 := signup (fun p => p) true signup_store_bob "bob" "secret1" "secret1" "XK42" in
  let r2 := signup (fun p => p) true signup_store_bob "alice" "secret1" "secret1" "XK42" in
  NoDup (List.map u_username (users signup_store_bob)) /\
  snd r1 = "Username already taken" /\
  In (List.last (fst r1) signup_store_bob) (fst r1) /\
  NoDup (List.map u_username (users (List.last (fst r1) signup_store_bob))) /\
  In (List.last (fst r2) signup_store_bob) (fst r2) /\
  List.map u_username (users (List.last (fst r2) signup_store_bob)) = ["bob"; "alice"] /\
  NoDup (List.map u_username (users (List.last (fst r2) signup_store_bob))).
Proof.
  intros r1 r2. subst r1 r2.
  assert (Hnd : NoDup (List.map u_username (users signup_store_bob)))
    by (vm_compute; apply NoDup_singleton).
  assert (Hin1 : In (List.last (fst (signup (fun p => p) true signup_store_bob "bob" "secret1"
                                       "secret1" "XK42")) signup_store_bob)
                    (fst (signup (fun p => p) true signup_store_bob "bob" "secret1" "secret1" "XK42")))
    by (vm_compute; repeat first [left; reflexivity | right]).
  assert (Hin2 : In (List.last (fst (signup (fun p => p) true signup_store_bob "alice" "secret1"
                                       "secret1" "XK42")) signup_store_bob)
                    (fst (signup (fun p => p) true signup_store_bob "alice" "secret1" "secret1" "XK42")))
    by (vm_compute; repeat first [left; reflexivity | right]).
  split; [exact Hnd|]. split; [vm_compute; reflexivity|]. split; [exact Hin1|].
  split; [exact (signup_usernames_unique (fun p => p) true signup_store_bob _
                   "bob" "secret1" "secret1" "XK42" Hnd Hin1)|].
  split; [exact Hin2|]. split; [vm_compute; reflexivity|].
  exact (signup_usernames_unique (fun p => p) true signup_store_bob _
           "alice" "secret1" "secret1" "XK42" Hnd Hin2).
Defined.
